(** * VisualChart broker adapter ([backtrader/brokers/vcbroker.py])

    A shallow embedding of [VCBroker]: the order translator [_makeorder],
    the submission path [submit] / [buy] / [sell], the notification queue and
    the COM event handlers, followed by the properties of the adapter.

    Conventions of the embedding.
    - Python [float]s (cash, prices, monetary figures) are exact rationals
      [Q]; order and fill sizes are integers [Z].
    - An exception is a [Raise] outcome.  A broker method is a function from
      the broker to an outcome paired with the broker it leaves behind, so
      that what was mutated before an exception stays mutated.
    - The two locks of the broker only delimit critical sections; every
      handler is modelled as it runs on its own.
    - Python objects with dynamic attributes (the venue request built by
      [_makeorder]) are finite maps from attribute names to values. *)

From Stdlib Require Import ZArith QArith Lia.
From stdpp Require Import base option list sorting strings gmap pretty.

Local Open Scope string_scope.
Local Open Scope list_scope.
Local Open Scope Z_scope.

(** ** Exceptions and outcomes *)

Inductive exn : Type :=
  | KeyError
  | IndexError
  | AttributeError (name : string)
  | OverflowError
  | COMError (hresult : Z).

Inductive result (A : Type) : Type :=
  | Return (a : A)
  | Raise (e : exn).
Arguments Return {A} a.
Arguments Raise {A} e.

Global Instance result_ret : MRet result := λ A a, Return a.
Global Instance result_bind : MBind result := λ A B k r,
  match r with
  | Return a => k a
  | Raise e => Raise e
  end.

Definition is_Return {A} (r : result A) : bool :=
  match r with Return _ => true | Raise _ => false end.

(** ** Constants of the venue modules ([store.vcctmod], [store.vcdsmod]) *)

Inductive vcconst : Type :=
  | OT_Market | OT_Limit | OT_StopMarket | OT_StopLimit
  | OS_Buy | OS_Sell
  | TR_NoRestriction | TR_Date | TR_CloseAuction | TR_Session
  | VR_NoRestriction
  | IT_Future | IT_Option | IT_Fund | IT_Other.

Global Instance vcconst_eq_dec : EqDecision vcconst.
Proof. solve_decision. Defined.

(** ** Python values that travel through the translator

    [VDate] is a calendar day (ordinal), [VDatetime] an instant in
    microseconds since 0001-01-01 00:00:00 and [VTimedelta] a duration in
    microseconds. *)

Inductive pyval : Type :=
  | VNone
  | VInt (z : Z)
  | VFloat (q : Q)
  | VStr (s : string)
  | VConst (c : vcconst)
  | VDate (day : Z)
  | VDatetime (us : Z)
  | VTimedelta (us : Z).

(** The last instant a [datetime] can hold, 9999-12-31 23:59:59.999999:
    day 3652059 of the calendar, less one microsecond. *)
Definition datetime_max : Z := 3652059 * 86400000000 - 1.

Definition datetime_in_range (us : Z) : bool :=
  (0 <=? us) && (us <=? datetime_max).

(** [dt + td] on a [datetime] and a [timedelta]: a sum outside the range of
    [datetime] raises [OverflowError]. *)
Definition datetime_add (dt td : Z) : result Z :=
  if datetime_in_range (dt + td) then Return (dt + td) else Raise OverflowError.

(** [x or y] on optional prices: [None] and [0.0] are falsy. *)
Definition truthy_price (p : option Q) : bool :=
  match p with
  | None => false
  | Some q => negb (Qeq_bool q 0)
  end.

Definition py_or (x y : option Q) : option Q :=
  if truthy_price x then x else y.

Definition price_val (p : option Q) : pyval :=
  match p with
  | None => VNone
  | Some q => VFloat q
  end.

Definition str_val (s : option string) : pyval :=
  match s with
  | None => VNone
  | Some s => VStr s
  end.

(** ** Constants of the engine's [Order] class used by the adapter *)

Inductive ExecType : Type := Market | Close | Limit | Stop | StopLimit.
Inductive OrdType : Type := Buy | Sell.
Inductive TRestr : Type := T_None | T_Date | T_Close | T_Day.
Inductive VRestr : Type := V_None.
Inductive Status : Type :=
  | Created | Submitted | Accepted | Partial | Completed | Canceled.

Global Instance ExecType_eq_dec : EqDecision ExecType.
Proof. solve_decision. Defined.
Global Instance OrdType_eq_dec : EqDecision OrdType.
Proof. solve_decision. Defined.
Global Instance TRestr_eq_dec : EqDecision TRestr.
Proof. solve_decision. Defined.
Global Instance VRestr_eq_dec : EqDecision VRestr.
Proof. solve_decision. Defined.
Global Instance Status_eq_dec : EqDecision Status.
Proof. solve_decision. Defined.

(** A Python [dict] literal with its subscript: a missing key raises. *)
Fixpoint dict_get {K V} `{EqDecision K} (d : list (K * V)) (k : K) : result V :=
  match d with
  | [] => Raise KeyError
  | (k', v) :: d' => if decide (k = k') then Return v else dict_get d' k
  end.

(** ** Position ([backtrader.position.Position]) *)

Module Position.

Record t : Type := mk { size : Z; price : Q }.

(** [Position()]: the flat position a [defaultdict] creates. *)
Definition new : t := {| size := 0; price := 0 |}.

Definition clone (self : t) : t := self.

(** Modelled from the spec: [Position.update] is declared in
    [backtrader/position.py], which is not part of these sources.  The
    closed quantity is the part of the fill that reduces the position
    towards zero (bounded by the current size, of the opposite sign), the
    opened quantity is the remainder; the average price is blended over
    the opened part only and is left alone by a pure reduction. *)
Definition update (self : t) (size_ : Z) (price_ : Q) : (Z * Q * Z * Z) * t :=
  let oldsize := size self in
  let newsize := oldsize + size_ in
  let closed :=
    if (Z.sgn oldsize * Z.sgn size_ <? 0)
    then Z.sgn size_ * Z.min (Z.abs size_) (Z.abs oldsize)
    else 0 in
  let opened := size_ - closed in
  let newprice :=
    if opened =? 0 then price self
    else if (oldsize =? 0) || negb (closed =? 0) then price_
    else ((price self * inject_Z oldsize + inject_Z opened * price_)
            / inject_Z newsize)%Q in
  (newsize, newprice, opened, closed, {| size := newsize; price := newprice |}).

End Position.

(** ** Commission schemes ([CommInfoBase] and [VCCommInfo]) *)

(** The contract of a commission scheme as the adapter calls it. *)
Record CommInfo : Type := {
  comm_mult : Q;                 (* self.p.mult *)
  comm_stocklike : bool;         (* self.p.stocklike *)
  getoperationcost : Z → Q → Q;
  getcommission : Z → Q → Q;
  profitandloss : Z → Q → Q → Q;
  getvaluesize : Z → Q → Q;
}.

(** [VCCommInfo(mult=..., stocklike=...)].  [getvaluesize] and
    [getoperationcost] are the two overrides of the class.
    Modelled from the spec: [getcommission] and [profitandloss] are inherited
    from [CommInfoBase] (not part of these sources); the default scheme
    charges no commission and books [size * (newprice - price) * mult]. *)
Definition VCCommInfo (mult : Q) (stocklike : bool) : CommInfo := {|
  comm_mult := mult;
  comm_stocklike := stocklike;
  getvaluesize size price := (inject_Z (Z.abs size) * price)%Q;
  getoperationcost size price := (inject_Z (Z.abs size) * price)%Q;
  getcommission size price := 0%Q;
  profitandloss size price newprice :=
    (inject_Z size * (newprice - price) * mult)%Q;
|}.

(** ** Data feeds, as far as the broker reads them *)

Record Data : Type := {
  _tradename : string;
  syminfo_Type : vcconst;        (* data._syminfo.Type *)
  syminfo_PointValue : Q;        (* data._syminfo.PointValue *)
  datetime0 : Q;                 (* data.datetime[0] *)
}.

(** ** Engine orders ([backtrader.order]) *)

(** One fill entry of an order: the arguments of [Order.execute]. *)
Record ExecutionBit : Type := {
  bit_dt : Q;
  bit_size : Z;
  bit_price : Q;
  bit_closed : Z;
  bit_closedvalue : Q;
  bit_closedcomm : Q;
  bit_opened : Z;
  bit_openedvalue : Q;
  bit_openedcomm : Q;
  bit_margin : Q;
  bit_pnl : Q;
  bit_psize : Z;
  bit_pprice : Q;
}.

Module Order.

(** Modelled from the spec: the [Order] class ([BuyOrder], [SellOrder] and
    their methods) is declared in [backtrader/order.py], which is not part
    of these sources.  An order carries its intent fields, a lifecycle
    status, the attached commission scheme, the venue identifier assigned
    at submission and the list of its fill entries; each lifecycle method
    sets the status it is named after. *)
Record t : Type := mk {
  ordtype : OrdType;
  owner : string;
  data : Data;
  size : Z;
  price : option Q;
  pricelimit : option Q;
  exectype : option ExecType;
  valid : pyval;
  tradeid : Z;
  info : gmap string pyval;
  status : Status;
  comminfo : option CommInfo;
  vcorder : option string;
  executed : list ExecutionBit;
}.

Definition create (ot : OrdType) (owner : string) (data : Data) (size : Z)
    (price pricelimit : option Q) (exectype : option ExecType)
    (valid : pyval) (tradeid : Z) : t :=
  mk ot owner data size price pricelimit exectype valid tradeid
     ∅ Created None None [].

Definition set_status (s : Status) (o : t) : t :=
  mk (ordtype o) (owner o) (data o) (size o) (price o) (pricelimit o)
     (exectype o) (valid o) (tradeid o) (info o)
     s (comminfo o) (vcorder o) (executed o).

Definition set_info (i : gmap string pyval) (o : t) : t :=
  mk (ordtype o) (owner o) (data o) (size o) (price o) (pricelimit o)
     (exectype o) (valid o) (tradeid o) i
     (status o) (comminfo o) (vcorder o) (executed o).

Definition set_comminfo (c : option CommInfo) (o : t) : t :=
  mk (ordtype o) (owner o) (data o) (size o) (price o) (pricelimit o)
     (exectype o) (valid o) (tradeid o) (info o)
     (status o) c (vcorder o) (executed o).

Definition set_vcorder (v : option string) (o : t) : t :=
  mk (ordtype o) (owner o) (data o) (size o) (price o) (pricelimit o)
     (exectype o) (valid o) (tradeid o) (info o)
     (status o) (comminfo o) v (executed o).

Definition set_executed (e : list ExecutionBit) (o : t) : t :=
  mk (ordtype o) (owner o) (data o) (size o) (price o) (pricelimit o)
     (exectype o) (valid o) (tradeid o) (info o)
     (status o) (comminfo o) (vcorder o) e.

Definition issell (o : t) : bool := bool_decide (ordtype o = Sell).

Definition addinfo (kwargs : gmap string pyval) (o : t) : t :=
  set_info (kwargs ∪ info o) o.

Definition addcomminfo (c : option CommInfo) (o : t) : t := set_comminfo c o.

Definition submit (o : t) : t := set_status Submitted o.
Definition accept (o : t) : t := set_status Accepted o.
Definition cancel (o : t) : t := set_status Canceled o.
Definition partial (o : t) : t := set_status Partial o.
Definition completed (o : t) : t := set_status Completed o.

(** [execute] appends one fill entry. *)
Definition execute (o : t) (b : ExecutionBit) : t :=
  set_executed (executed o ++ [b]) o.

(** [clone]: a snapshot; the value itself, since values are immutable. *)
Definition clone (o : t) : t := o.

End Order.

Definition BuyOrder := Order.create Buy.
Definition SellOrder := Order.create Sell.

(** ** The venue *)

(** An account of [trader.Accounts]. *)
Record Acc : Type := {
  acc_Account : string;
  Balance_Cash : Q;
  Balance_NetWorth : Q;
}.

(** The ComTrader object handed to [__call__]; [Accounts] is what the
    collection holds when it is read. *)
Record Trader : Type := { Accounts : list Acc }.

(** The payload of an order callback ([Order.OrderId], [Order.Price],
    [Order.Volume]). *)
Record VCEvent : Type := {
  OrderId : string;
  Price : Q;
  Volume : Z;
}.

(** The positional and keyword arguments of [vcct.SendOrder]. *)
Record SendArgs : Type := {
  sa_Account : pyval;
  sa_SymbolCode : pyval;
  sa_OrderType : pyval;
  sa_OrderSide : pyval;
  sa_Volume : pyval;
  sa_Price : pyval;
  sa_StopPrice : pyval;
  sa_VolumeRestriction : pyval;
  sa_TimeRestriction : pyval;
  sa_ValidDate : pyval;
}.

(** What the broker uses of its [VCStore]: [vcctmod.Order()] yields a fresh
    request object with the attributes its schema defines, and
    [vcct.SendOrder] raises or returns: the identifier the venue assigned,
    or [None] when it hands back no identifier. *)
Record VCStore : Type := {
  vcctmod_Order : gmap string pyval;
  vcct_SendOrder : SendArgs → result (option string);
}.

(** ** The broker object *)

Record VCBroker : Type := mkBroker {
  p_account : option string;                           (* self.p.account *)
  comminfo : gmap (option string) (option CommInfo);   (* self.comminfo *)
  _acc_name : option string;
  startingcash : Q;
  cash : Q;
  startingvalue : Q;
  value : Q;
  positions : gmap string Position.t;
  orderbyid : gmap (option string) Order.t;   (* keys: what SendOrder returned *)
  notifs : list (option Order.t);
}.

Definition set_account (name : option string) (c v : Q) (self : VCBroker) : VCBroker :=
  mkBroker (p_account self) (comminfo self) name c c v v
           (positions self) (orderbyid self) (notifs self).

Definition set_balance (c v : Q) (self : VCBroker) : VCBroker :=
  mkBroker (p_account self) (comminfo self) (_acc_name self)
           (startingcash self) c (startingvalue self) v
           (positions self) (orderbyid self) (notifs self).

Definition set_positions (ps : gmap string Position.t) (self : VCBroker) : VCBroker :=
  mkBroker (p_account self) (comminfo self) (_acc_name self)
           (startingcash self) (cash self) (startingvalue self) (value self)
           ps (orderbyid self) (notifs self).

Definition set_orderbyid (os : gmap (option string) Order.t) (self : VCBroker)
    : VCBroker :=
  mkBroker (p_account self) (comminfo self) (_acc_name self)
           (startingcash self) (cash self) (startingvalue self) (value self)
           (positions self) os (notifs self).

Definition set_notifs (ns : list (option Order.t)) (self : VCBroker) : VCBroker :=
  mkBroker (p_account self) (comminfo self) (_acc_name self)
           (startingcash self) (cash self) (startingvalue self) (value self)
           (positions self) (orderbyid self) ns.

(** [__init__]: the commission table is the one [BrokerBase] builds from the
    [commission] parameter, [{None: self.p.commission}]. *)
Definition init (account : option string) (commission : option CommInfo) : VCBroker :=
  mkBroker account {[ None := commission ]} None 0 0 0 0 ∅ ∅ [].

(** The mapping tables of [__init__]. *)
Definition _otypes : list (option ExecType * vcconst) :=
  [ (Some Market, OT_Market);
    (Some Close, OT_Market);
    (Some Limit, OT_Limit);
    (Some Stop, OT_StopMarket);
    (Some StopLimit, OT_StopLimit) ].

Definition _osides : list (OrdType * vcconst) :=
  [ (Buy, OS_Buy); (Sell, OS_Sell) ].

Definition _otrestriction : list (TRestr * vcconst) :=
  [ (T_None, TR_NoRestriction);
    (T_Date, TR_Date);
    (T_Close, TR_CloseAuction);
    (T_Day, TR_Session) ].

Definition _ovrestriction : list (VRestr * vcconst) :=
  [ (V_None, VR_NoRestriction) ].

Definition _futlikes : list vcconst := [ IT_Future; IT_Option; IT_Fund ].

Definition getcash (self : VCBroker) : Q := cash self.
Definition getvalue (self : VCBroker) : Q := value self.

(** [self.notifs.popleft()]: an empty deque raises [IndexError]. *)
Definition get_notification (self : VCBroker) : result (option Order.t) * VCBroker :=
  match notifs self with
  | [] => (Raise IndexError, self)
  | n :: rest => (Return n, set_notifs rest self)
  end.

Definition notify (self : VCBroker) (order : Order.t) : VCBroker :=
  set_notifs (notifs self ++ [Some (Order.clone order)]) self.

Definition next (self : VCBroker) : VCBroker :=
  set_notifs (notifs self ++ [None]) self.

(** [self.positions[data._tradename]] on a [defaultdict(Position)]: reading
    a missing key stores a flat position under it. *)
Definition getposition (self : VCBroker) (data : Data) (clone : bool)
    : Position.t * VCBroker :=
  match positions self !! _tradename data with
  | Some pos => (if clone then Position.clone pos else pos, self)
  | None =>
      let pos := Position.new in
      (if clone then Position.clone pos else pos,
       set_positions (<[_tradename data := pos]> (positions self)) self)
  end.

Definition getcommissioninfo (self : VCBroker) (data : Data)
    : result (option CommInfo) :=
  match comminfo self !! Some (_tradename data) with
  | Some c => Return c
  | None =>
      match comminfo self !! None with
      | None => Raise KeyError
      | Some (Some c) => Return (Some c)
      | Some None =>
          let stocklike := bool_decide (syminfo_Type data ∈ _futlikes) in
          Return (Some (VCCommInfo (syminfo_PointValue data) stocklike))
      end
  end.

(** ** Order translation ([_makeorder]) *)

Definition setattr (o : gmap string pyval) (k : string) (v : pyval)
    : gmap string pyval := <[k := v]> o.

Definition hasattr (o : gmap string pyval) (k : string) : bool :=
  bool_decide (is_Some (o !! k)).

Definition getattr (o : gmap string pyval) (k : string) : result pyval :=
  match o !! k with
  | Some v => Return v
  | None => Raise (AttributeError k)
  end.

(** [for k in kwargs: if hasattr(order, k): setattr(order, k, kwargs[k])].
    The keys of a [dict] are distinct, so the order of the iteration does
    not show in the result. *)
Definition apply_kwargs (order kwargs : gmap string pyval) : gmap string pyval :=
  map_fold (λ k v order, if hasattr order k then setattr order k v else order)
           order kwargs.

Section Translator.

(** [Order.DAY], the duration that stands for a day order.  The constant
    is declared in the engine's [Order] class; the translator only
    compares against it. *)
Variable DAY : Z.

(** [now] is the value of [datetime.now()]; adding a duration to it raises
    [OverflowError] when the sum is outside the range of [datetime].  The
    last branch of the
    validity cascade evaluates [self.valid]: the broker has no attribute
    of that name (none of the assignments of [__init__] and [__call__],
    no method, no parameter), so the lookup raises. *)
Definition _makeorder (store : VCStore) (now : Z) (self : VCBroker)
    (ordtype : OrdType) (owner : string) (data : Data) (size : Z)
    (price plimit : option Q) (exectype : option ExecType) (valid : pyval)
    (tradeid : Z) (kwargs : gmap string pyval) : result (gmap string pyval) :=
  let order := vcctmod_Order store in
  let order := setattr order "Account" (str_val (_acc_name self)) in
  let order := setattr order "SymbolCode" (VStr (_tradename data)) in
  otype ← dict_get _otypes exectype;
  let order := setattr order "OrderType" (VConst otype) in
  oside ← dict_get _osides ordtype;
  let order := setattr order "OrderSide" (VConst oside) in
  vrestr ← dict_get _ovrestriction V_None;
  let order := setattr order "VolumeRestriction" (VConst vrestr) in
  let order := setattr order "HideVolume" (VInt 0) in
  let order := setattr order "MinVolume" (VInt 0) in
  let order := setattr order "UserOrderId" (VStr "") in
  let order :=
    if bool_decide (tradeid ≠ 0)
    then setattr order "ExtendedInfo" (VStr ("TradeId " +:+ pretty tradeid))
    else setattr order "ExtendedInfo" (VStr "") in
  let order := setattr order "Volume" (VInt (Z.abs size)) in
  let order := setattr order "StopPrice" (VFloat 0) in
  let order := setattr order "Price" (VFloat 0) in
  let order :=
    match exectype with
    | Some Market => order
    | Some Limit => setattr order "Price" (price_val (py_or price plimit))
    | Some Close => order
    | Some Stop => setattr order "StopPrice" (price_val price)
    | Some StopLimit =>
        setattr (setattr order "StopPrice" (price_val price))
                "Price" (price_val plimit)
    | None => order
    end in
  let order := setattr order "ValidDate" VNone in
  order ←
    (if bool_decide (exectype = Some Close) then
       tr ← dict_get _otrestriction T_Close;
       mret (setattr order "TimeRestriction" (VConst tr))
     else
       match valid with
       | VNone =>
           tr ← dict_get _otrestriction T_None;
           mret (setattr order "TimeRestriction" (VConst tr))
       | VDatetime _ | VDate _ =>
           tr ← dict_get _otrestriction T_Date;
           mret (setattr (setattr order "TimeRestriction" (VConst tr))
                         "ValidDate" valid)
       | VTimedelta td =>
           if bool_decide (td = DAY) then
             tr ← dict_get _otrestriction T_Day;
             mret (setattr order "TimeRestriction" (VConst tr))
           else
             tr ← dict_get _otrestriction T_Date;
             until ← datetime_add now td;
             mret (setattr (setattr order "TimeRestriction" (VConst tr))
                           "ValidDate" (VDatetime until))
       | VInt _ | VFloat _ | VStr _ | VConst _ =>
           Raise (AttributeError "valid")
       end);
  mret (apply_kwargs order kwargs).

(** ** Submission ([submit], [buy], [sell]) *)

Definition send_args (vco : gmap string pyval) : result SendArgs :=
  account ← getattr vco "Account";
  symbol ← getattr vco "SymbolCode";
  otype ← getattr vco "OrderType";
  oside ← getattr vco "OrderSide";
  volume ← getattr vco "Volume";
  price ← getattr vco "Price";
  stopprice ← getattr vco "StopPrice";
  vrestr ← getattr vco "VolumeRestriction";
  trestr ← getattr vco "TimeRestriction";
  validdate ← getattr vco "ValidDate";
  mret {| sa_Account := account; sa_SymbolCode := symbol;
          sa_OrderType := otype; sa_OrderSide := oside;
          sa_Volume := volume; sa_Price := price;
          sa_StopPrice := stopprice; sa_VolumeRestriction := vrestr;
          sa_TimeRestriction := trestr; sa_ValidDate := validdate |}.

Definition submit (store : VCStore) (self : VCBroker)
    (order : Order.t) (vcorder : gmap string pyval)
    : result Order.t * VCBroker :=
  let order := Order.submit order in
  let vco := vcorder in
  match args ← send_args vco; vcct_SendOrder store args with
  | Raise e => (Raise e, self)
  | Return oid =>
      let order := Order.set_vcorder oid order in
      match getcommissioninfo self (Order.data order) with
      | Raise e => (Raise e, self)
      | Return c =>
          let order := Order.addcomminfo c order in
          let self := set_orderbyid (<[oid := order]> (orderbyid self)) self in
          let self := notify self order in
          (Return order, self)
      end
  end.

Definition buy (store : VCStore) (now : Z) (self : VCBroker)
    (owner : string) (data : Data) (size : Z) (price plimit : option Q)
    (exectype : option ExecType) (valid : pyval) (tradeid : Z)
    (kwargs : gmap string pyval) : result Order.t * VCBroker :=
  let order := BuyOrder owner data size price plimit exectype valid tradeid in
  let order := Order.addinfo kwargs order in
  match _makeorder store now self (Order.ordtype order) owner data size
                   price plimit exectype valid tradeid kwargs with
  | Raise e => (Raise e, self)
  | Return vcorder => submit store self order vcorder
  end.

Definition sell (store : VCStore) (now : Z) (self : VCBroker)
    (owner : string) (data : Data) (size : Z) (price plimit : option Q)
    (exectype : option ExecType) (valid : pyval) (tradeid : Z)
    (kwargs : gmap string pyval) : result Order.t * VCBroker :=
  let order := SellOrder owner data size price plimit exectype valid tradeid in
  let order := Order.addinfo kwargs order in
  match _makeorder store now self (Order.ordtype order) owner data size
                   price plimit exectype valid tradeid kwargs with
  | Raise e => (Raise e, self)
  | Return vcorder => submit store self order vcorder
  end.

End Translator.

(** ** COM events *)

(** [__call__]: select the first account the [account] parameter admits. *)
Definition __call__ (self : VCBroker) (trader : Trader) : VCBroker :=
  match
    find (λ acc, match p_account self with
                 | None => true
                 | Some a => bool_decide (a = acc_Account acc)
                 end) (Accounts trader)
  with
  | Some acc =>
      set_account (Some (acc_Account acc))
                  (Balance_Cash acc) (Balance_NetWorth acc) self
  | None => self
  end.

(** [trader] is the ComTrader object [self.trader] refers to, as it is when
    the event arrives. *)
Definition OnChangedBalance (self : VCBroker) (trader : Trader)
    (Account : string) : result unit * VCBroker :=
  match _acc_name self with
  | None => (Return (), self)
  | Some name =>
      if bool_decide (name ≠ Account) then (Return (), self)
      else
        match find (λ acc, bool_decide (acc_Account acc = Account))
                   (Accounts trader) with
        | Some acc =>
            (Return (),
             set_balance (Balance_Cash acc) (Balance_NetWorth acc) self)
        | None => (Return (), self)
        end
  end.

Definition OnModifiedOrder (self : VCBroker) (Order_ : VCEvent)
    : result unit * VCBroker := (Return (), self).

(** The registered order is one object, looked up and then changed in
    place: the entry of the registry is replaced by the changed order.
    [submit] registers every order object under one identifier. *)
Definition OnCancelledOrder (self : VCBroker) (Order_ : VCEvent)
    : result unit * VCBroker :=
  match orderbyid self !! Some (OrderId Order_) with
  | None => (Return (), self)
  | Some border =>
      let border := Order.cancel border in
      let self := set_orderbyid (<[Some (OrderId Order_) := border]> (orderbyid self)) self in
      (Return (), notify self border)
  end.

Definition OnExecutedOrder (self : VCBroker) (Order_ : VCEvent) (partial : bool)
    : result unit * VCBroker :=
  match orderbyid self !! Some (OrderId Order_) with
  | None => (Return (), self)
  | Some border =>
      let price := Price Order_ in
      let size := Volume Order_ in
      let size := if Order.issell border then size * -1 else size in
      let '(position, self) := getposition self (Order.data border) false in
      let pprice_orig := Position.price position in
      let '(psize, pprice, opened, closed, position) :=
        Position.update position size price in
      let self :=
        set_positions (<[_tradename (Order.data border) := position]>
                         (positions self)) self in
      match Order.comminfo border with
      | None => (Raise (AttributeError "getoperationcost"), self)
      | Some comminfo =>
          let closedvalue := getoperationcost comminfo closed pprice_orig in
          let closedcomm := getcommission comminfo closed price in
          let openedvalue := getoperationcost comminfo opened price in
          let openedcomm := getcommission comminfo opened price in
          let pnl := profitandloss comminfo (- closed) pprice_orig price in
          let margin := getvaluesize comminfo size price in
          let border :=
            Order.execute border
              {| bit_dt := datetime0 (Order.data border);
                 bit_size := size; bit_price := price;
                 bit_closed := closed; bit_closedvalue := closedvalue;
                 bit_closedcomm := closedcomm;
                 bit_opened := opened; bit_openedvalue := openedvalue;
                 bit_openedcomm := openedcomm;
                 bit_margin := margin; bit_pnl := pnl;
                 bit_psize := psize; bit_pprice := pprice |} in
          let border :=
            if partial then Order.partial border else Order.completed border in
          let self :=
            set_orderbyid (<[Some (OrderId Order_) := border]> (orderbyid self)) self in
          (Return (), notify self border)
      end
  end.

Definition OnTotalExecutedOrder (self : VCBroker) (Order_ : VCEvent)
    : result unit * VCBroker := OnExecutedOrder self Order_ false.

Definition OnPartialExecutedOrder (self : VCBroker) (Order_ : VCEvent)
    : result unit * VCBroker := OnExecutedOrder self Order_ true.

Definition OnOrderInMarket (self : VCBroker) (Order_ : VCEvent)
    : result unit * VCBroker :=
  match orderbyid self !! Some (OrderId Order_) with
  | None => (Return (), self)
  | Some border =>
      let border := Order.accept border in
      let self := set_orderbyid (<[Some (OrderId Order_) := border]> (orderbyid self)) self in
      (Return (), notify self border)
  end.

Definition OnNewOrderLocation (self : VCBroker) (Order_ : VCEvent)
    : result unit * VCBroker := (Return (), self).

Definition OnChangedOpenPositions (self : VCBroker) (Account : string)
    : result unit * VCBroker := (Return (), self).

Definition OnNewClosedOperations (self : VCBroker) (Account : string)
    : result unit * VCBroker := (Return (), self).

Definition OnServerShutDown (self : VCBroker) : result unit * VCBroker :=
  (Return (), self).

Definition OnInternalEvent (self : VCBroker) (p1 p2 p3 : pyval)
    : result unit * VCBroker := (Return (), self).

(** ** Sequences of order callbacks *)

Inductive Callback : Type :=
  | InMarket (ev : VCEvent)
  | Cancelled (ev : VCEvent)
  | PartialExecuted (ev : VCEvent)
  | TotalExecuted (ev : VCEvent).

Definition payload (cb : Callback) : VCEvent :=
  match cb with
  | InMarket ev | Cancelled ev | PartialExecuted ev | TotalExecuted ev => ev
  end.

Definition deliver (self : VCBroker) (cb : Callback) : result unit * VCBroker :=
  match cb with
  | InMarket ev => OnOrderInMarket self ev
  | Cancelled ev => OnCancelledOrder self ev
  | PartialExecuted ev => OnPartialExecutedOrder self ev
  | TotalExecuted ev => OnTotalExecutedOrder self ev
  end.

(** The venue delivers the callbacks one after the other; the outcomes are
    collected in order. *)
Fixpoint deliver_all (self : VCBroker) (cbs : list Callback)
    : list (result unit) * VCBroker :=
  match cbs with
  | [] => ([], self)
  | cb :: cbs' =>
      let '(r, self) := deliver self cb in
      let '(rs, self) := deliver_all self cbs' in
      (r :: rs, self)
  end.

(** The status a callback stands for. *)
Definition named_status (cb : Callback) : Status :=
  match cb with
  | InMarket _ => Accepted
  | Cancelled _ => Canceled
  | PartialExecuted _ => Partial
  | TotalExecuted _ => Completed
  end.

(** The lifecycle [Submitted, Accepted, Partial*, (Completed|Canceled)] and
    its subsequences. *)
Definition lifecycle (n : nat) (final : Status) : list Status :=
  [Submitted; Accepted] ++ replicate n Partial ++ [final].

Definition monotonic (l : list Status) : Prop :=
  ∃ n final, (final = Completed ∨ final = Canceled) ∧ l `sublist_of` lifecycle n final.

Definition rank (s : Status) : Z :=
  match s with
  | Created => 0
  | Submitted => 1
  | Accepted => 2
  | Partial => 3
  | Completed | Canceled => 4
  end.

Definition rank_le (a b : Status) : Prop := rank a ≤ rank b.

(** ** A small session, used in the examples below

    One instrument [X], a venue whose fresh request object has the fields
    the translator fills in plus [UserName] and [OrderId], and which either
    assigns the identifier [A1] to whatever it is sent or is down. *)

Definition data_X : Data :=
  {| _tradename := "X"; syminfo_Type := IT_Other;
     syminfo_PointValue := 1; datetime0 := 0 |}.

Definition fresh_request : gmap string pyval :=
  list_to_map
    [ ("Account", VNone); ("SymbolCode", VNone); ("OrderType", VNone);
      ("OrderSide", VNone); ("VolumeRestriction", VNone);
      ("HideVolume", VNone); ("MinVolume", VNone); ("UserName", VNone);
      ("OrderId", VNone); ("UserOrderId", VNone); ("ExtendedInfo", VNone);
      ("Volume", VNone); ("StopPrice", VNone); ("Price", VNone);
      ("ValidDate", VNone); ("TimeRestriction", VNone) ].

Definition store_A1 : VCStore :=
  {| vcctmod_Order := fresh_request;
     vcct_SendOrder := λ _, Return (Some "A1") |}.

Definition store_down : VCStore :=
  {| vcctmod_Order := fresh_request;
     vcct_SendOrder := λ _, Raise (COMError (-1)) |}.

(** A venue that returns from [SendOrder] without an identifier. *)
Definition store_silent : VCStore :=
  {| vcctmod_Order := fresh_request;
     vcct_SendOrder := λ _, Return None |}.

(** The market buy of 10 [X] as [submit] leaves it when the venue returned
    [None]. *)
Definition order_unnamed : Order.t :=
  Order.addcomminfo (Some (VCCommInfo 1 false))
    (Order.set_vcorder None
       (Order.submit
          (Order.addinfo ∅
             (BuyOrder "strategy" data_X 10 None None (Some Market) VNone 0)))).

(** The broker after a market buy of 10 [X] was sent through [store_A1]. *)
Definition order_A1 : Order.t :=
  Order.addcomminfo (Some (VCCommInfo 1 false))
    (Order.set_vcorder (Some "A1")
       (Order.submit
          (Order.addinfo ∅
             (BuyOrder "strategy" data_X 10 None None (Some Market) VNone 0)))).

Definition broker_A1 : VCBroker :=
  (buy 0 store_A1 0 (init None None) "strategy" data_X 10 None None
       (Some Market) VNone 0 ∅).2.

(** The request the translator builds for that buy, and what [submit]
    passes on to [SendOrder]. *)
Definition request_X : gmap string pyval :=
  Eval vm_compute in
    match _makeorder 0 store_A1 0 (init None None) Buy "strategy" data_X 10
                     None None (Some Market) VNone 0 ∅ with
    | Return vco => vco
    | Raise _ => ∅
    end.

Definition args_X : SendArgs :=
  {| sa_Account := VNone; sa_SymbolCode := VStr "X";
     sa_OrderType := VConst OT_Market; sa_OrderSide := VConst OS_Buy;
     sa_Volume := VInt 10; sa_Price := VFloat 0; sa_StopPrice := VFloat 0;
     sa_VolumeRestriction := VConst VR_NoRestriction;
     sa_TimeRestriction := VConst TR_NoRestriction;
     sa_ValidDate := VNone |}.

(** The venue reports 10 executed at 100 for [A1]. *)
Definition fill_A1 : VCEvent := {| OrderId := "A1"; Price := 100; Volume := 10 |}.

(** The translation returns a request with the given time restriction and
    valid-until date. *)
Definition translates_to (r : result (gmap string pyval)) (tr vd : pyval) : Prop :=
  ∃ vco, r = Return vco ∧
         vco !! "TimeRestriction" = Some tr ∧
         vco !! "ValidDate" = Some vd.

(** The validity values the cascade of [_makeorder] has a branch for:
    [None], a [date], a [datetime], a [timedelta]. *)
Definition recognised_validity (valid : pyval) : bool :=
  match valid with
  | VNone | VDate _ | VDatetime _ | VTimedelta _ => true
  | VInt _ | VFloat _ | VStr _ | VConst _ => false
  end.

(** ** Life of a broker

    The operations that change a broker: account selection, submission,
    the venue events, the tick mark and the poll of the queue, and the two
    public helpers [notify] and [getposition]. *)

Inductive step : VCBroker → VCBroker → Prop :=
  | step_call self trader :
      step self (__call__ self trader)
  | step_submit store self order vcorder :
      step self (submit store self order vcorder).2
  | step_buy DAY store now self owner data size price plimit exectype valid
             tradeid kwargs :
      step self (buy DAY store now self owner data size price plimit
                     exectype valid tradeid kwargs).2
  | step_sell DAY store now self owner data size price plimit exectype valid
              tradeid kwargs :
      step self (sell DAY store now self owner data size price plimit
                      exectype valid tradeid kwargs).2
  | step_deliver self cb :
      step self (deliver self cb).2
  | step_balance self trader Account :
      step self (OnChangedBalance self trader Account).2
  | step_next self :
      step self (next self)
  | step_poll self :
      step self (get_notification self).2
  | step_notify self order :
      step self (notify self order)
  | step_getposition self data clone :
      step self (getposition self data clone).2.

(** The brokers that [__init__] and any number of operations lead to. *)
Inductive reachable (account : option string) (commission : option CommInfo)
    : VCBroker → Prop :=
  | reachable_init : reachable account commission (init account commission)
  | reachable_step self self' :
      reachable account commission self → step self self' →
      reachable account commission self'.

(** Every registered order carries a commission scheme. *)
Definition registry_ok (self : VCBroker) : Prop :=
  ∀ oid order, orderbyid self !! oid = Some order →
               is_Some (Order.comminfo order).

(** The account test of [__call__]. *)
Definition admits (self : VCBroker) (acc : Acc) : bool :=
  match p_account self with
  | None => true
  | Some a => bool_decide (a = acc_Account acc)
  end.

(** The request holds [v] under [k] unless [kwargs] names [k]. *)
Definition field_set_to (vco kwargs : gmap string pyval)
    (k : string) (v : pyval) : Prop :=
  vco !! k = Some (default v (kwargs !! k)).

(** Two accounts at the venue. *)
Definition trader_two : Trader :=
  {| Accounts :=
       [ {| acc_Account := "ACC1"; Balance_Cash := 1000; Balance_NetWorth := 1500 |};
         {| acc_Account := "ACC2"; Balance_Cash := 7; Balance_NetWorth := 9 |} ] |}.

(** The request of a mapped kind as the translator has it before it turns
    to the validity (everything up to the price fields). *)
Definition request_core (store : VCStore) (self : VCBroker)
    (ordtype : OrdType) (data : Data) (size : Z) (price plimit : option Q)
    (et : ExecType) (tradeid : Z) : gmap string pyval :=
  let order := vcctmod_Order store in
  let order := setattr order "Account" (str_val (_acc_name self)) in
  let order := setattr order "SymbolCode" (VStr (_tradename data)) in
  let order :=
    setattr order "OrderType"
      (VConst match et with
              | Market | Close => OT_Market
              | Limit => OT_Limit
              | Stop => OT_StopMarket
              | StopLimit => OT_StopLimit
              end) in
  let order :=
    setattr order "OrderSide"
      (VConst match ordtype with Buy => OS_Buy | Sell => OS_Sell end) in
  let order := setattr order "VolumeRestriction" (VConst VR_NoRestriction) in
  let order := setattr order "HideVolume" (VInt 0) in
  let order := setattr order "MinVolume" (VInt 0) in
  let order := setattr order "UserOrderId" (VStr "") in
  let order :=
    if bool_decide (tradeid ≠ 0)
    then setattr order "ExtendedInfo" (VStr ("TradeId " +:+ pretty tradeid))
    else setattr order "ExtendedInfo" (VStr "") in
  let order := setattr order "Volume" (VInt (Z.abs size)) in
  let order := setattr order "StopPrice" (VFloat 0) in
  let order := setattr order "Price" (VFloat 0) in
  match et with
  | Market => order
  | Limit => setattr order "Price" (price_val (py_or price plimit))
  | Close => order
  | Stop => setattr order "StopPrice" (price_val price)
  | StopLimit =>
      setattr (setattr order "StopPrice" (price_val price))
              "Price" (price_val plimit)
  end.


(** * Properties *)

(** ** Unknown identifiers *)

(** C1. An order callback (accepted in market, cancelled, partial fill,
    total fill) whose identifier is not in the order registry returns
    normally and leaves the whole broker as it was: positions, cash, net
    worth, registry and notification queue. *)
Theorem unknown_identifier_is_noop (self : VCBroker) (ev : VCEvent) :
  orderbyid self !! Some (OrderId ev) = None →
  OnOrderInMarket self ev = (Return (), self) ∧
  OnCancelledOrder self ev = (Return (), self) ∧
  OnPartialExecutedOrder self ev = (Return (), self) ∧
  OnTotalExecutedOrder self ev = (Return (), self).
Proof.
  intros Hmiss.
  unfold OnPartialExecutedOrder, OnTotalExecutedOrder, OnExecutedOrder,
    OnOrderInMarket, OnCancelledOrder.
  rewrite Hmiss. done.
Qed.

Lemma unknown_identifier_is_noop_witness :
  let self := init None None in
  let ev := {| OrderId := "X1"; Price := 100; Volume := 10 |} in
  orderbyid self !! Some (OrderId ev) = None ∧
  OnOrderInMarket self ev = (Return (), self) ∧
  OnCancelledOrder self ev = (Return (), self) ∧
  OnPartialExecutedOrder self ev = (Return (), self) ∧
  OnTotalExecutedOrder self ev = (Return (), self).
Proof.
  split; [reflexivity |].
  apply (unknown_identifier_is_noop (init None None)
           {| OrderId := "X1"; Price := 100; Volume := 10 |}).
  reflexivity.
Defined.

(** ** Balance events *)

(** C8. A balance-change event for an account other than the selected one
    (or arriving while no account is selected) returns without touching the
    broker: cash, net worth, orders and positions stay as they were. *)
Theorem balance_of_other_account_ignored
    (self : VCBroker) (trader : Trader) (Account : string) :
  _acc_name self ≠ Some Account →
  OnChangedBalance self trader Account = (Return (), self).
Proof.
  intros Hother. unfold OnChangedBalance.
  destruct (_acc_name self) as [name|]; [| done].
  rewrite bool_decide_true; [done | congruence].
Qed.

Lemma balance_of_other_account_ignored_witness :
  let self := set_account (Some "ACC1") 1000 1500 (init None None) in
  let trader := {| Accounts := [ {| acc_Account := "ACC2";
                                    Balance_Cash := 7;
                                    Balance_NetWorth := 9 |} ] |} in
  _acc_name self ≠ Some "ACC2" ∧
  OnChangedBalance self trader "ACC2" = (Return (), self).
Proof.
  split; [discriminate |].
  apply balance_of_other_account_ignored. discriminate.
Defined.

(** ** Notification queue *)

(** With an empty queue the poll raises [IndexError]: there is no sentinel
    to hand out. *)
Lemma get_notification_empty_raises :
  notifs (init None None) = [] ∧
  get_notification (init None None) = (Raise IndexError, init None None).
Proof. split; reflexivity. Qed.

(** C4 (amended). The poll removes and returns the oldest entry of a
    non-empty queue and raises [IndexError] on an empty one; after [next]
    has marked the tick boundary the poll always returns, handing out the
    oldest entry or the boundary mark itself. *)
Theorem get_notification_pops_oldest (self : VCBroker) :
  match notifs self with
  | n :: rest => get_notification self = (Return n, set_notifs rest self)
  | [] => get_notification self = (Raise IndexError, self)
  end ∧
  get_notification (next self) =
    (Return (default None (head (notifs self))),
     set_notifs (tail (notifs self ++ [None])) (next self)).
Proof.
  split.
  - unfold get_notification. destruct (notifs self); reflexivity.
  - unfold get_notification, next. cbn.
    destruct (notifs self); reflexivity.
Qed.

(** ** Submission *)

(** A venue that returns without an identifier: the order is registered
    under [None] and notified, and nothing is raised. *)
Lemma send_without_identifier_registers :
  let r := buy 0 store_silent 0 (init None None) "strategy" data_X 10
               None None (Some Market) VNone 0 ∅ in
  vcct_SendOrder store_silent args_X = Return None ∧
  r.1 = Return order_unnamed ∧
  orderbyid r.2 !! None = Some order_unnamed ∧
  notifs r.2 = [Some order_unnamed].
Proof.
  split; [exact eq_refl |].
  split; [vm_cast_no_check (@eq_refl _ (Return order_unnamed)) |].
  split; [vm_cast_no_check (@eq_refl _ (Some order_unnamed)) |].
  vm_cast_no_check (@eq_refl _ [Some order_unnamed]).
Qed.

(** C3 (amended). When the venue's [SendOrder] raises on the request,
    [submit] raises the same exception and the broker is left as it was:
    the order is neither registered nor notified; the same holds for [buy]
    and [sell] whose request it is.  The adapter does not look at what
    [SendOrder] returns: when it returns, with an identifier or with
    [None], the order is registered under the returned value and
    notified. *)
Theorem submit_failure_leaves_no_trace
    (store : VCStore) (self : VCBroker) (order : Order.t)
    (vco : gmap string pyval) (args : SendArgs) :
  send_args vco = Return args →
  match vcct_SendOrder store args with
  | Raise e =>
      submit store self order vco = (Raise e, self) ∧
      (∀ DAY now owner data size price plimit exectype valid tradeid kwargs,
         _makeorder DAY store now self Buy owner data size price plimit
                    exectype valid tradeid kwargs = Return vco →
         buy DAY store now self owner data size price plimit
             exectype valid tradeid kwargs = (Raise e, self)) ∧
      (∀ DAY now owner data size price plimit exectype valid tradeid kwargs,
         _makeorder DAY store now self Sell owner data size price plimit
                    exectype valid tradeid kwargs = Return vco →
         sell DAY store now self owner data size price plimit
              exectype valid tradeid kwargs = (Raise e, self))
  | Return reply =>
      ∀ c, getcommissioninfo self (Order.data order) = Return c →
           let order' :=
             Order.addcomminfo c
               (Order.set_vcorder reply (Order.submit order)) in
           let self' :=
             notify (set_orderbyid (<[reply := order']> (orderbyid self)) self)
                    order' in
           submit store self order vco = (Return order', self') ∧
           orderbyid self' !! reply = Some order' ∧
           notifs self' = notifs self ++ [Some order']
  end.
Proof.
  intros Hargs.
  destruct (vcct_SendOrder store args) as [reply | e] eqn:Hsend.
  - intros c Hc order' self'. subst order' self'.
    split; [| split].
    + unfold submit. rewrite Hargs. cbn [mbind result_bind]. rewrite Hsend.
      change (Order.data (Order.set_vcorder reply (Order.submit order)))
        with (Order.data order).
      by rewrite Hc.
    + unfold notify, set_notifs, set_orderbyid. cbn [orderbyid].
      apply lookup_insert_eq.
    + reflexivity.
  - assert (Hsubmit : ∀ o, submit store self o vco = (Raise e, self)).
    { intros o. unfold submit. rewrite Hargs. cbn [mbind result_bind].
      by rewrite Hsend. }
    split; [apply Hsubmit |]. split.
    + intros DAY now owner data size price plimit exectype valid tradeid
        kwargs Hmk.
      unfold buy. cbv zeta.
      change (Order.ordtype (Order.addinfo kwargs (BuyOrder owner data size
                price plimit exectype valid tradeid))) with Buy.
      rewrite Hmk. apply Hsubmit.
    + intros DAY now owner data size price plimit exectype valid tradeid
        kwargs Hmk.
      unfold sell. cbv zeta.
      change (Order.ordtype (Order.addinfo kwargs (SellOrder owner data size
                price plimit exectype valid tradeid))) with Sell.
      rewrite Hmk. apply Hsubmit.
Qed.

Lemma submit_failure_leaves_no_trace_witness :
  send_args request_X = Return args_X ∧
  match vcct_SendOrder store_down args_X with
  | Raise e =>
      submit store_down (init None None) order_A1 request_X
        = (Raise e, init None None) ∧
      (∀ DAY now owner data size price plimit exectype valid tradeid kwargs,
         _makeorder DAY store_down now (init None None) Buy owner data size
                    price plimit exectype valid tradeid kwargs
           = Return request_X →
         buy DAY store_down now (init None None) owner data size price plimit
             exectype valid tradeid kwargs = (Raise e, init None None)) ∧
      (∀ DAY now owner data size price plimit exectype valid tradeid kwargs,
         _makeorder DAY store_down now (init None None) Sell owner data size
                    price plimit exectype valid tradeid kwargs
           = Return request_X →
         sell DAY store_down now (init None None) owner data size price plimit
              exectype valid tradeid kwargs = (Raise e, init None None))
  | Return reply =>
      ∀ c, getcommissioninfo (init None None) (Order.data order_A1) = Return c →
           let order' :=
             Order.addcomminfo c
               (Order.set_vcorder reply (Order.submit order_A1)) in
           let self' :=
             notify (set_orderbyid (<[reply := order']>
                                      (orderbyid (init None None)))
                                   (init None None))
                    order' in
           submit store_down (init None None) order_A1 request_X
             = (Return order', self') ∧
           orderbyid self' !! reply = Some order' ∧
           notifs self' = notifs (init None None) ++ [Some order']
  end.
Proof.
  assert (Hargs : send_args request_X = Return args_X).
  { vm_cast_no_check (@eq_refl _ (Return args_X)). }
  split; [exact Hargs |].
  exact (submit_failure_leaves_no_trace store_down (init None None) order_A1
           request_X args_X Hargs).
Defined.

(** ** Executions *)

(** C2. For a partial or total execution whose identifier is registered,
    the handler returns, the fill size is the reported volume, negated
    exactly for a sell order, and the fill entry appended to the order (and
    shown by the snapshot put on the queue) carries the figures computed by
    the order's own commission scheme: closed value at the average price the
    position had before the update, the commissions and the opened value at
    the fill price, the profit and loss of [- closed] between both prices,
    and the value size of the fill as margin. *)
Theorem executed_order_figures
    (self : VCBroker) (ev : VCEvent) (partial : bool)
    (border : Order.t) (ci : CommInfo) :
  orderbyid self !! Some (OrderId ev) = Some border →
  Order.comminfo border = Some ci →
  let fillsize := if Order.issell border then - Volume ev else Volume ev in
  let fillprice := Price ev in
  let prior :=
    default Position.new (positions self !! _tradename (Order.data border)) in
  let priorAvgPrice := Position.price prior in
  let '(psize, pprice, opened, closed, after) :=
    Position.update prior fillsize fillprice in
  ∃ (bit : ExecutionBit) (border' : Order.t) (self' : VCBroker),
    OnExecutedOrder self ev partial = (Return (), self') ∧
    positions self' !! _tradename (Order.data border) = Some after ∧
    orderbyid self' !! Some (OrderId ev) = Some border' ∧
    notifs self' = notifs self ++ [Some border'] ∧
    Order.executed border' = Order.executed border ++ [bit] ∧
    Order.status border' = (if partial then Partial else Completed) ∧
    bit_size bit = fillsize ∧
    bit_price bit = fillprice ∧
    bit_closed bit = closed ∧
    bit_opened bit = opened ∧
    bit_psize bit = psize ∧
    bit_pprice bit = pprice ∧
    bit_closedvalue bit = getoperationcost ci closed priorAvgPrice ∧
    bit_closedcomm bit = getcommission ci closed fillprice ∧
    bit_openedvalue bit = getoperationcost ci opened fillprice ∧
    bit_openedcomm bit = getcommission ci opened fillprice ∧
    bit_pnl bit = profitandloss ci (- closed) priorAvgPrice fillprice ∧
    bit_margin bit = getvaluesize ci fillsize fillprice.
Proof.
  intros Hfound Hci fillsize fillprice prior priorAvgPrice.
  destruct (Position.update prior fillsize fillprice)
    as [[[[psize pprice] opened] closed] after] eqn:Hupd.
  assert (Hsize : (if Order.issell border then Volume ev * -1 else Volume ev)
                  = fillsize).
  { unfold fillsize. destruct (Order.issell border); [lia | done]. }
  unfold OnExecutedOrder. rewrite Hfound.
  assert (Hpos : ∃ self1,
    getposition self (Order.data border) false = (prior, self1) ∧
    orderbyid self1 = orderbyid self ∧ notifs self1 = notifs self).
  { unfold getposition, prior.
    destruct (positions self !! _tradename (Order.data border)); eauto. }
  destruct Hpos as (self1 & -> & Hreg & Hq).
  rewrite Hsize. fold fillprice. rewrite Hupd, Hci.
  eexists _, _, _. split; [reflexivity |].
  split; [cbn; apply lookup_insert_eq |].
  split; [cbn; apply lookup_insert_eq |].
  split; [cbn; by rewrite Hq |].
  split; [by destruct partial |].
  split; [by destruct partial |].
  repeat split.
Qed.

Lemma executed_order_figures_witness :
  orderbyid broker_A1 !! Some (OrderId fill_A1) = Some order_A1 ∧
  Order.comminfo order_A1 = Some (VCCommInfo 1 false) ∧
  let fillsize := if Order.issell order_A1 then - Volume fill_A1 else Volume fill_A1 in
  let fillprice := Price fill_A1 in
  let prior :=
    default Position.new (positions broker_A1 !! _tradename (Order.data order_A1)) in
  let priorAvgPrice := Position.price prior in
  let '(psize, pprice, opened, closed, after) :=
    Position.update prior fillsize fillprice in
  ∃ (bit : ExecutionBit) (border' : Order.t) (self' : VCBroker),
    OnExecutedOrder broker_A1 fill_A1 false = (Return (), self') ∧
    positions self' !! _tradename (Order.data order_A1) = Some after ∧
    orderbyid self' !! Some (OrderId fill_A1) = Some border' ∧
    notifs self' = notifs broker_A1 ++ [Some border'] ∧
    Order.executed border' = Order.executed order_A1 ++ [bit] ∧
    Order.status border' = (if false then Partial else Completed) ∧
    bit_size bit = fillsize ∧
    bit_price bit = fillprice ∧
    bit_closed bit = closed ∧
    bit_opened bit = opened ∧
    bit_psize bit = psize ∧
    bit_pprice bit = pprice ∧
    bit_closedvalue bit = getoperationcost (VCCommInfo 1 false) closed priorAvgPrice ∧
    bit_closedcomm bit = getcommission (VCCommInfo 1 false) closed fillprice ∧
    bit_openedvalue bit = getoperationcost (VCCommInfo 1 false) opened fillprice ∧
    bit_openedcomm bit = getcommission (VCCommInfo 1 false) opened fillprice ∧
    bit_pnl bit = profitandloss (VCCommInfo 1 false) (- closed) priorAvgPrice fillprice ∧
    bit_margin bit = getvaluesize (VCCommInfo 1 false) fillsize fillprice.
Proof.
  assert (Hfound : orderbyid broker_A1 !! Some (OrderId fill_A1) = Some order_A1).
  { vm_cast_no_check (@eq_refl _ (Some order_A1)). }
  assert (Hci : Order.comminfo order_A1 = Some (VCCommInfo 1 false)).
  { reflexivity. }
  split; [exact Hfound |]. split; [exact Hci |].
  exact (executed_order_figures broker_A1 fill_A1 false order_A1
           (VCCommInfo 1 false) Hfound Hci).
Defined.

(** ** Extra keyword fields *)

Lemma hasattr_is_Some (o : gmap string pyval) (k : string) :
  hasattr o k = true ↔ is_Some (o !! k).
Proof. unfold hasattr. apply bool_decide_eq_true. Qed.

(** What the loop over [kwargs] leaves under each attribute name. *)
Lemma apply_kwargs_lookup (order kwargs : gmap string pyval) (k : string) :
  apply_kwargs order kwargs !! k =
    match order !! k with
    | Some old => Some (default old (kwargs !! k))
    | None => None
    end.
Proof.
  revert k. unfold apply_kwargs.
  apply (map_fold_weak_ind (λ r m, ∀ k,
    r !! k = match order !! k with
             | Some old => Some (default old (m !! k))
             | None => None
             end)).
  - intros k. rewrite lookup_empty. by destruct (order !! k).
  - intros i x m r Hfresh IH k.
    destruct (hasattr r i) eqn:Hdef.
    + apply hasattr_is_Some in Hdef. rewrite IH in Hdef.
      unfold setattr. destruct (decide (i = k)) as [->|Hne].
      * rewrite !lookup_insert_eq.
        destruct (order !! k); [done | by destruct Hdef].
      * rewrite !lookup_insert_ne by done. apply IH.
    + assert (Hnone : order !! i = None).
      { destruct (order !! i) eqn:Hoi; [| done].
        assert (is_Some (r !! i)) as Hs by (rewrite IH, Hoi; eauto).
        apply hasattr_is_Some in Hs. congruence. }
      rewrite IH. destruct (decide (i = k)) as [->|Hne].
      * by rewrite Hnone.
      * by rewrite lookup_insert_ne.
Qed.

Lemma apply_kwargs_empty (order : gmap string pyval) :
  apply_kwargs order ∅ = order.
Proof. unfold apply_kwargs. apply map_fold_empty. Qed.

(** The translator builds the request from everything but [kwargs] and
    runs the loop over [kwargs] last. *)
Lemma _makeorder_kwargs_last DAY store now self ordtype owner data size
    price plimit exectype valid tradeid (kwargs : gmap string pyval) :
  _makeorder DAY store now self ordtype owner data size price plimit
             exectype valid tradeid kwargs =
  (base ← _makeorder DAY store now self ordtype owner data size price plimit
                     exectype valid tradeid ∅;
   mret (apply_kwargs base kwargs)).
Proof.
  unfold _makeorder.
  destruct (dict_get _otypes exectype) as [otype|]; [| done]. cbn -[dict_get].
  destruct (dict_get _osides ordtype) as [oside|]; [| done]. cbn -[dict_get].
  destruct (dict_get _ovrestriction V_None) as [vr|]; [| done]. cbn -[dict_get].
  match goal with
  | |- mbind _ ?r = mbind _ (mbind _ ?r) => destruct r as [req|]; [| done]
  end.
  cbn. by rewrite apply_kwargs_empty.
Qed.


(** ** Time restriction and validity *)

Lemma _otypes_get (et : ExecType) :
  dict_get _otypes (Some et) =
    Return match et with
           | Market | Close => OT_Market
           | Limit => OT_Limit
           | Stop => OT_StopMarket
           | StopLimit => OT_StopLimit
           end.
Proof. by destruct et. Qed.

Lemma _osides_get (ot : OrdType) :
  dict_get _osides ot = Return match ot with Buy => OS_Buy | Sell => OS_Sell end.
Proof. by destruct ot. Qed.

Lemma _otrestriction_get (t : TRestr) :
  dict_get _otrestriction t =
    Return match t with
           | T_None => TR_NoRestriction
           | T_Date => TR_Date
           | T_Close => TR_CloseAuction
           | T_Day => TR_Session
           end.
Proof. by destruct t. Qed.

Lemma _ovrestriction_get : dict_get _ovrestriction V_None = Return VR_NoRestriction.
Proof. done. Qed.

Ltac run_tables :=
  unfold _makeorder;
  rewrite _otypes_get, _osides_get, _ovrestriction_get, ?_otrestriction_get;
  cbn -[setattr apply_kwargs pretty dict_get bool_decide].

Ltac read_request :=
  rewrite ?apply_kwargs_empty; unfold setattr;
  repeat (first [ rewrite lookup_insert_eq | rewrite lookup_insert_ne by done ]);
  try done.

(** A close order without extra fields. *)
Lemma _makeorder_close DAY store now self ordtype owner data size
    price plimit valid tradeid :
  translates_to
    (_makeorder DAY store now self ordtype owner data size price plimit
                (Some Close) valid tradeid ∅)
    (VConst TR_CloseAuction) VNone.
Proof.
  run_tables. rewrite bool_decide_true by done.
  cbn -[setattr apply_kwargs pretty].
  eexists. split; [done |]. split; read_request.
Qed.

(** The validity cascade of the other kinds, without extra fields. *)
Lemma _makeorder_validity DAY store now self ordtype owner data size
    price plimit (et : ExecType) valid tradeid :
  et ≠ Close →
  let r := _makeorder DAY store now self ordtype owner data size price plimit
                      (Some et) valid tradeid ∅ in
  match valid with
  | VNone => translates_to r (VConst TR_NoRestriction) VNone
  | VDate _ | VDatetime _ => translates_to r (VConst TR_Date) valid
  | VTimedelta td =>
      if bool_decide (td = DAY)
      then translates_to r (VConst TR_Session) VNone
      else if datetime_in_range (now + td)
           then translates_to r (VConst TR_Date) (VDatetime (now + td))
           else r = Raise OverflowError
  | VInt _ | VFloat _ | VStr _ | VConst _ => r = Raise (AttributeError "valid")
  end.
Proof.
  intros Hne r. subst r. run_tables.
  rewrite (bool_decide_false (Some et = Some Close)) by congruence.
  unfold datetime_add.
  destruct valid as [| | | | | d | t | td]; try done;
    try case_bool_decide;
    try destruct (datetime_in_range (now + td));
    cbn -[setattr apply_kwargs pretty];
    try reflexivity;
    (eexists; split; [done |]; split; read_request).
Qed.

(** Extra fields named [TimeRestriction] or [ValidDate] replace what the
    translator has set. *)
Lemma translates_to_kwargs DAY store now self ordtype owner data size
    price plimit exectype valid tradeid (kwargs : gmap string pyval) tr vd :
  translates_to
    (_makeorder DAY store now self ordtype owner data size price plimit
                exectype valid tradeid ∅) tr vd →
  translates_to
    (_makeorder DAY store now self ordtype owner data size price plimit
                exectype valid tradeid kwargs)
    (default tr (kwargs !! "TimeRestriction"))
    (default vd (kwargs !! "ValidDate")).
Proof.
  intros (base & Hbase & Htr & Hvd).
  rewrite _makeorder_kwargs_last, Hbase. cbn.
  eexists. split; [done |].
  by rewrite !apply_kwargs_lookup, Htr, Hvd.
Qed.




(** The sum of the current time and a duration can leave the range of
    [datetime]: the translator then raises [OverflowError] instead of
    returning a request. *)
Lemma duration_out_of_range_raises :
  _makeorder 0 store_A1 0 (init None None) Buy "strategy" data_X 10
             None None (Some Market) (VTimedelta (-1)) 0 ∅ = Raise OverflowError.
Proof. vm_cast_no_check (@eq_refl (result (gmap string pyval)) (Raise OverflowError)). Qed.



(** ** Validity values without a branch *)

(** C10. For an order that is not of kind close and whose validity is
    neither [None] nor a date, datetime or timedelta, the translator raises
    instead of returning a request, and so do [buy] and [sell], which leave
    the broker untouched; for a kind the type table maps, the error is the
    failed lookup of the attribute [valid] on the broker. *)
Theorem unsupported_validity_raises DAY store now self owner data size
    price plimit (exectype : option ExecType) valid tradeid
    (kwargs : gmap string pyval) :
  exectype ≠ Some Close →
  recognised_validity valid = false →
  ∃ e,
    (∀ ordtype,
       _makeorder DAY store now self ordtype owner data size price plimit
                  exectype valid tradeid kwargs = Raise e) ∧
    buy DAY store now self owner data size price plimit
        exectype valid tradeid kwargs = (Raise e, self) ∧
    sell DAY store now self owner data size price plimit
         exectype valid tradeid kwargs = (Raise e, self) ∧
    (is_Some exectype → e = AttributeError "valid").
Proof.
  intros Hkind Hvalid.
  assert (Hmk : ∃ e,
    (∀ ordtype,
       _makeorder DAY store now self ordtype owner data size price plimit
                  exectype valid tradeid kwargs = Raise e) ∧
    (is_Some exectype → e = AttributeError "valid")).
  { destruct exectype as [et|].
    - exists (AttributeError "valid"). split; [| done].
      intros ordtype. rewrite _makeorder_kwargs_last.
      assert (Hne : et ≠ Close) by congruence.
      pose proof (_makeorder_validity DAY store now self ordtype owner data
                    size price plimit et valid tradeid Hne) as Hbase.
      cbv zeta in Hbase.
      destruct valid; try discriminate Hvalid; by rewrite Hbase.
    - exists KeyError. split; [done | by intros [? ?]]. }
  destruct Hmk as (e & Hmk & He). exists e.
  split; [exact Hmk |]. split; [| split; [| exact He]].
  - unfold buy. cbv zeta.
    change (Order.ordtype (Order.addinfo kwargs (BuyOrder owner data size price
              plimit exectype valid tradeid))) with Buy.
    by rewrite Hmk.
  - unfold sell. cbv zeta.
    change (Order.ordtype (Order.addinfo kwargs (SellOrder owner data size price
              plimit exectype valid tradeid))) with Sell.
    by rewrite Hmk.
Qed.

Lemma unsupported_validity_raises_witness :
  Some Market ≠ Some Close ∧
  recognised_validity (VInt 5) = false ∧
  ∃ e,
    (∀ ordtype,
       _makeorder 0 store_A1 0 (init None None) ordtype "strategy" data_X 10
                  None None (Some Market) (VInt 5) 0 ∅ = Raise e) ∧
    buy 0 store_A1 0 (init None None) "strategy" data_X 10 None None
        (Some Market) (VInt 5) 0 ∅ = (Raise e, init None None) ∧
    sell 0 store_A1 0 (init None None) "strategy" data_X 10 None None
         (Some Market) (VInt 5) 0 ∅ = (Raise e, init None None) ∧
    (is_Some (Some Market) → e = AttributeError "valid").
Proof.
  assert (Hkind : Some Market ≠ Some Close) by discriminate.
  assert (Hvalid : recognised_validity (VInt 5) = false) by reflexivity.
  split; [exact Hkind |]. split; [exact Hvalid |].
  exact (unsupported_validity_raises 0 store_A1 0 (init None None) "strategy"
           data_X 10 None None (Some Market) (VInt 5) 0 ∅ Hkind Hvalid).
Defined.

(** ** Status sequences *)

Lemma sublist_Forall_keep {A} (P : A → Prop) (l k : list A) :
  l `sublist_of` k → Forall P k → Forall P l.
Proof.
  induction 1 as [| x l k _ IH | x l k _ IH]; intros Hk.
  - constructor.
  - inversion_clear Hk. constructor; auto.
  - inversion_clear Hk. auto.
Qed.

Lemma sublist_StronglySorted {A} (R : relation A) (l k : list A) :
  l `sublist_of` k → StronglySorted R k → StronglySorted R l.
Proof.
  induction 1 as [| x l k Hsub IH | x l k _ IH]; intros Hk.
  - constructor.
  - inversion_clear Hk. constructor; [auto |].
    eapply sublist_Forall_keep; eassumption.
  - inversion_clear Hk. auto.
Qed.

Lemma lifecycle_ranks (n : nat) (final : Status) :
  final = Completed ∨ final = Canceled →
  StronglySorted rank_le (lifecycle n final).
Proof.
  intros Hfinal.
  assert (Hrank : rank final = 4) by (destruct Hfinal; subst; reflexivity).
  assert (Htail : StronglySorted rank_le (replicate n Partial ++ [final]) ∧
                  Forall (λ s, 3 ≤ rank s) (replicate n Partial ++ [final])).
  { induction n as [| n [IHs IHf]]; cbn.
    - split; repeat constructor. lia.
    - split.
      + constructor; [exact IHs |].
        eapply Forall_impl; [exact IHf |]. intros s Hs. cbv beta in Hs.
        unfold rank_le. change (rank Partial) with 3. lia.
      + constructor; [cbn; lia | exact IHf]. }
  destruct Htail as [Hs Hf]. unfold lifecycle. cbn.
  constructor.
  - constructor; [exact Hs |].
    eapply Forall_impl; [exact Hf |]. intros s Hs'. cbv beta in Hs'.
    unfold rank_le. change (rank Accepted) with 2. lia.
  - constructor; [unfold rank_le; cbn; lia |].
    eapply Forall_impl; [exact Hf |]. intros s Hs'. cbv beta in Hs'.
    unfold rank_le. change (rank Submitted) with 1. lia.
Qed.

(** A status sequence that follows the lifecycle never steps back. *)
Lemma monotonic_ranks (l : list Status) :
  monotonic l → StronglySorted rank_le l.
Proof.
  intros (n & final & Hfinal & Hsub).
  eapply sublist_StronglySorted; [exact Hsub |].
  by apply lifecycle_ranks.
Qed.

(** What one callback does to a registered order that carries a commission
    scheme. *)
Lemma deliver_found (self : VCBroker) (cb : Callback)
    (border : Order.t) (ci : CommInfo) :
  orderbyid self !! Some (OrderId (payload cb)) = Some border →
  Order.comminfo border = Some ci →
  ∃ border' self',
    deliver self cb = (Return (), self') ∧
    orderbyid self' = <[Some (OrderId (payload cb)) := border']> (orderbyid self) ∧
    notifs self' = notifs self ++ [Some border'] ∧
    Order.status border' = named_status cb ∧
    Order.comminfo border' = Some ci.
Proof.
  intros Hfound Hci.
  assert (Hexec : ∀ ev partial,
    orderbyid self !! Some (OrderId ev) = Some border →
    ∃ border' self',
      OnExecutedOrder self ev partial = (Return (), self') ∧
      orderbyid self' = <[Some (OrderId ev) := border']> (orderbyid self) ∧
      notifs self' = notifs self ++ [Some border'] ∧
      Order.status border' = (if partial then Partial else Completed) ∧
      Order.comminfo border' = Some ci).
  { intros ev partial Hev. unfold OnExecutedOrder. rewrite Hev.
    assert (Hpos : ∃ pos self1,
      getposition self (Order.data border) false = (pos, self1) ∧
      orderbyid self1 = orderbyid self ∧ notifs self1 = notifs self).
    { unfold getposition.
      destruct (positions self !! _tradename (Order.data border)); eauto. }
    destruct Hpos as (pos & self1 & -> & Hreg & Hq).
    destruct (Position.update pos _ (Price ev))
      as [[[[psize pprice] opened] closed] after].
    rewrite Hci.
    destruct partial;
      (eexists _, _; split; [reflexivity |];
       cbn; rewrite Hreg, Hq; repeat split; exact Hci). }
  destruct cb as [ev | ev | ev | ev]; cbn in Hfound |- *.
  - unfold OnOrderInMarket. rewrite Hfound.
    eexists _, _. split; [reflexivity |]. repeat split. exact Hci.
  - unfold OnCancelledOrder. rewrite Hfound.
    eexists _, _. split; [reflexivity |]. repeat split. exact Hci.
  - by apply (Hexec ev true).
  - by apply (Hexec ev false).
Qed.

(** After the buy [A1] was filled in full, a late accepted-in-market
    callback puts the order back to [Accepted]: the queue shows
    [Submitted, Completed, Accepted], which steps back. *)
Lemma accepted_after_completed_regresses :
  let self' :=
    (deliver_all broker_A1 [TotalExecuted fill_A1; InMarket fill_A1]).2 in
  omap (fmap Order.status) (notifs self') = [Submitted; Completed; Accepted] ∧
  Order.status <$> orderbyid self' !! Some "A1" = Some Accepted ∧
  ¬ monotonic [Submitted; Completed; Accepted].
Proof.
  split; [vm_cast_no_check (@eq_refl _ [Submitted; Completed; Accepted]) |].
  split; [vm_cast_no_check (@eq_refl _ (Some Accepted)) |].
  intros Hmono. apply monotonic_ranks in Hmono.
  inversion_clear Hmono as [| ? ? Htail _].
  inversion_clear Htail as [| ? ? _ Hafter].
  inversion_clear Hafter as [| ? ? Hle _].
  unfold rank_le in Hle. cbn in Hle. lia.
Qed.

(** C5 (amended). Every callback delivered for a registered order returns
    and sets the status it stands for, whatever the status was: accepted in
    market gives [Accepted], cancelled [Canceled], partial fill [Partial],
    total fill [Completed].  The statuses of the snapshots put on the queue
    are exactly those, in the order of arrival, and the registry ends with
    the last of them; so the observed sequence follows the lifecycle
    [Submitted, Accepted, Partial*, (Completed|Canceled)] exactly when the
    callbacks arrive in that order. *)
Theorem callbacks_set_named_status
    (cbs : list Callback) (self : VCBroker) (oid : string)
    (border : Order.t) (ci : CommInfo) :
  orderbyid self !! Some oid = Some border →
  Order.comminfo border = Some ci →
  Forall (λ cb, OrderId (payload cb) = oid) cbs →
  ∃ (snaps : list Order.t) (self' : VCBroker),
    deliver_all self cbs = (replicate (length cbs) (Return ()), self') ∧
    notifs self' = notifs self ++ (Some <$> snaps) ∧
    Order.status <$> snaps = named_status <$> cbs ∧
    Order.status <$> orderbyid self' !! Some oid =
      Some (default (Order.status border) (last (named_status <$> cbs))) ∧
    (monotonic (Order.status border :: (Order.status <$> snaps)) ↔
     monotonic (Order.status border :: (named_status <$> cbs))).
Proof.
  revert self border.
  induction cbs as [| cb cbs IH]; intros self border Hfound Hci Hoid.
  - exists [], self. cbn. rewrite app_nil_r, Hfound. done.
  - inversion_clear Hoid as [| ? ? Hcb Hrest].
    rewrite <- Hcb in Hfound.
    destruct (deliver_found self cb border ci Hfound Hci)
      as (border1 & self1 & Hstep & Hreg & Hq & Hst & Hci1).
    assert (Hfound1 : orderbyid self1 !! Some oid = Some border1).
    { rewrite Hreg, Hcb. apply lookup_insert_eq. }
    destruct (IH self1 border1 Hfound1 Hci1 Hrest)
      as (snaps & self' & Hrun & Hq' & Hsts & Hlast & _).
    exists (border1 :: snaps), self'.
    assert (Hstatuses :
      Order.status <$> border1 :: snaps = named_status <$> cb :: cbs).
    { cbn. by rewrite Hst, Hsts. }
    split; [cbn; by rewrite Hstep, Hrun |].
    split; [rewrite Hq', Hq, <- app_assoc; done |].
    split; [exact Hstatuses |].
    split; [| by rewrite Hstatuses].
    rewrite Hlast, Hst. cbn [fmap list_fmap].
    rewrite last_cons. by destruct (last (named_status <$> cbs)).
Qed.

Lemma callbacks_set_named_status_witness :
  orderbyid broker_A1 !! Some "A1" = Some order_A1 ∧
  Order.comminfo order_A1 = Some (VCCommInfo 1 false) ∧
  Forall (λ cb, OrderId (payload cb) = "A1")
         [InMarket fill_A1; TotalExecuted fill_A1] ∧
  ∃ (snaps : list Order.t) (self' : VCBroker),
    deliver_all broker_A1 [InMarket fill_A1; TotalExecuted fill_A1] =
      (replicate (length [InMarket fill_A1; TotalExecuted fill_A1]) (Return ()),
       self') ∧
    notifs self' = notifs broker_A1 ++ (Some <$> snaps) ∧
    Order.status <$> snaps =
      named_status <$> [InMarket fill_A1; TotalExecuted fill_A1] ∧
    Order.status <$> orderbyid self' !! Some "A1" =
      Some (default (Order.status order_A1)
              (last (named_status <$> [InMarket fill_A1; TotalExecuted fill_A1]))) ∧
    (monotonic (Order.status order_A1 :: (Order.status <$> snaps)) ↔
     monotonic (Order.status order_A1 ::
                  (named_status <$> [InMarket fill_A1; TotalExecuted fill_A1]))).
Proof.
  assert (Hfound : orderbyid broker_A1 !! Some "A1" = Some order_A1).
  { vm_cast_no_check (@eq_refl _ (Some order_A1)). }
  assert (Hci : Order.comminfo order_A1 = Some (VCCommInfo 1 false)).
  { reflexivity. }
  assert (Hoid : Forall (λ cb, OrderId (payload cb) = "A1")
                        [InMarket fill_A1; TotalExecuted fill_A1]).
  { repeat constructor. }
  split; [exact Hfound |]. split; [exact Hci |]. split; [exact Hoid |].
  exact (callbacks_set_named_status [InMarket fill_A1; TotalExecuted fill_A1]
           broker_A1 "A1" order_A1 (VCCommInfo 1 false) Hfound Hci Hoid).
Defined.

(** ** The scenarios of the design notes, run on the model *)

(** Buy 10 [X] at market, accepted, then filled in full at 100: the position
    is 10 at 100, the order is completed, and the queue holds the three
    snapshots in order. *)
Example scenario_simple_buy_fill :
  let self' :=
    (deliver_all broker_A1 [InMarket fill_A1; TotalExecuted fill_A1]).2 in
  positions self' !! "X" = Some {| Position.size := 10; Position.price := 100 |} ∧
  Order.status <$> orderbyid self' !! Some "A1" = Some Completed ∧
  omap (fmap Order.status) (notifs self') = [Submitted; Accepted; Completed].
Proof.
  split; [vm_cast_no_check
            (@eq_refl _ (Some {| Position.size := 10; Position.price := 100 |})) |].
  split; [vm_cast_no_check (@eq_refl _ (Some Completed)) |].
  vm_cast_no_check (@eq_refl _ [Submitted; Accepted; Completed]).
Qed.

(** A long position of 5 that receives a sell of 8 closes 5 and opens 3 on
    the short side at the fill price. *)
Example scenario_flip :
  Position.update {| Position.size := 5; Position.price := 100 |} (-8) 120 =
    (-3, 120%Q, -3, -5, {| Position.size := -3; Position.price := 120 |}).
Proof. reflexivity. Qed.

(** Cancelling before any fill leaves the positions alone. *)
Example scenario_cancel :
  let self' := (OnCancelledOrder broker_A1 fill_A1).2 in
  positions self' = positions broker_A1 ∧
  Order.status <$> orderbyid self' !! Some "A1" = Some Canceled.
Proof.
  split; [reflexivity |].
  vm_cast_no_check (@eq_refl _ (Some Canceled)).
Qed.


(** * Further properties of the adapter *)

(** ** Queue discipline *)

(** X1. The queue is first-in first-out across [notify] and [next]: on a
    broker whose queue is empty, two notifications followed by the tick
    mark are polled in that order, the broker is back to what it was, and
    one more poll raises [IndexError]. *)
Theorem queue_is_fifo (self : VCBroker) (o1 o2 : Order.t) :
  notifs self = [] →
  let s0 := next (notify (notify self o1) o2) in
  let '(r1, s1) := get_notification s0 in
  let '(r2, s2) := get_notification s1 in
  let '(r3, s3) := get_notification s2 in
  r1 = Return (Some o1) ∧ r2 = Return (Some o2) ∧ r3 = Return None ∧
  s3 = self ∧ get_notification s3 = (Raise IndexError, self).
Proof.
  destruct self as [acct tbl name sc c sv v ps os ns]. cbn.
  intros ->. repeat split.
Qed.

Lemma queue_is_fifo_witness :
  notifs (init None None) = [] ∧
  let s0 := next (notify (notify (init None None) order_A1) order_A1) in
  let '(r1, s1) := get_notification s0 in
  let '(r2, s2) := get_notification s1 in
  let '(r3, s3) := get_notification s2 in
  r1 = Return (Some order_A1) ∧ r2 = Return (Some order_A1) ∧ r3 = Return None ∧
  s3 = init None None ∧
  get_notification s3 = (Raise IndexError, init None None).
Proof.
  split; [reflexivity |].
  exact (queue_is_fifo (init None None) order_A1 order_A1 eq_refl).
Defined.

(** ** The default commission scheme *)

(** X2. With the generated [VCCommInfo] the cost of an operation equals its
    value size, does not depend on the direction of the trade, and is not
    negative when the price is not. *)
Theorem VCCommInfo_cost (mult : Q) (stocklike : bool) (size : Z) (price : Q) :
  let c := VCCommInfo mult stocklike in
  getoperationcost c size price = getvaluesize c size price ∧
  getoperationcost c (- size) price = getoperationcost c size price ∧
  ((0 <= price)%Q → (0 <= getoperationcost c size price)%Q).
Proof.
  cbn. split; [reflexivity |]. split.
  - by rewrite Z.abs_opp.
  - intros Hprice. apply Qmult_le_0_compat; [| exact Hprice].
    unfold Qle. cbn. lia.
Qed.

(** ** Positions *)

(** X3. [getposition] hands out the stored position of the instrument, or a
    flat one when none is stored, in which case the flat position is stored
    as a side effect of the read.  Nothing else changes, the positions of
    the other instruments stay as they were, and reading again returns the
    same position and changes nothing. *)
Theorem getposition_reads_or_creates (self : VCBroker) (data : Data) (clone : bool) :
  let '(pos, self') := getposition self data clone in
  pos = default Position.new (positions self !! _tradename data) ∧
  positions self' !! _tradename data = Some pos ∧
  (∀ name, name ≠ _tradename data →
           positions self' !! name = positions self !! name) ∧
  orderbyid self' = orderbyid self ∧ notifs self' = notifs self ∧
  cash self' = cash self ∧ value self' = value self ∧
  getposition self' data clone = (pos, self').
Proof.
  unfold getposition.
  destruct (positions self !! _tradename data) as [pos|] eqn:Hpos.
  - rewrite Hpos. by destruct clone.
  - cbn. rewrite lookup_insert_eq.
    assert (Hother : ∀ name, name ≠ _tradename data →
      <[_tradename data := Position.new]> (positions self) !! name =
      positions self !! name).
    { intros name Hne. by rewrite lookup_insert_ne. }
    by destruct clone.
Qed.

(** ** Account selection and balance events *)

Lemma find_first {A} (f : A → bool) (pre post : list A) (x : A) :
  Forall (λ y, f y = false) pre → f x = true →
  find f (pre ++ x :: post) = Some x.
Proof.
  induction 1 as [| y pre Hy _ IH]; intros Hx; cbn.
  - by rewrite Hx.
  - rewrite Hy. by apply IH.
Qed.

Lemma find_nothing {A} (f : A → bool) (l : list A) :
  Forall (λ y, f y = false) l → find f l = None.
Proof.
  induction 1 as [| y l Hy _ IH]; cbn; [done |]. by rewrite Hy.
Qed.

(** X4. [__call__] selects the first account of the trader that the
    [account] parameter admits (any account when the parameter is [None]):
    its name becomes the selected account, its cash and net worth become
    both the current and the starting figures, and orders, positions and
    queue are untouched.  When no account is admitted the broker stays as
    it was, with no account selected if none was. *)
Theorem call_selects_first_admitted (self : VCBroker) (trader : Trader) :
  (∀ pre acc post,
     Accounts trader = pre ++ acc :: post →
     Forall (λ x, admits self x = false) pre →
     admits self acc = true →
     let self' := __call__ self trader in
     _acc_name self' = Some (acc_Account acc) ∧
     cash self' = Balance_Cash acc ∧ startingcash self' = Balance_Cash acc ∧
     value self' = Balance_NetWorth acc ∧
     startingvalue self' = Balance_NetWorth acc ∧
     positions self' = positions self ∧ orderbyid self' = orderbyid self ∧
     notifs self' = notifs self) ∧
  (Forall (λ x, admits self x = false) (Accounts trader) →
   __call__ self trader = self).
Proof.
  split.
  - intros pre acc post Hsplit Hpre Hacc. unfold __call__.
    fold (admits self). rewrite Hsplit, (find_first _ _ _ _ Hpre Hacc).
    done.
  - intros Hnone. unfold __call__. fold (admits self).
    by rewrite (find_nothing _ _ Hnone).
Qed.

(** X5. A balance event for the selected account takes the cash and net
    worth of the first account of that name the trader holds; the starting
    figures, the selected account, the orders, the positions and the queue
    stay as they were.  When the trader holds no account of that name the
    broker is unchanged. *)
Theorem balance_of_selected_account (self : VCBroker) (trader : Trader)
    (Account : string) :
  _acc_name self = Some Account →
  (∀ pre acc post,
     Accounts trader = pre ++ acc :: post →
     Forall (λ x, acc_Account x ≠ Account) pre →
     acc_Account acc = Account →
     let '(r, self') := OnChangedBalance self trader Account in
     r = Return () ∧
     getcash self' = Balance_Cash acc ∧ getvalue self' = Balance_NetWorth acc ∧
     startingcash self' = startingcash self ∧
     startingvalue self' = startingvalue self ∧
     _acc_name self' = Some Account ∧
     positions self' = positions self ∧ orderbyid self' = orderbyid self ∧
     notifs self' = notifs self) ∧
  (Forall (λ x, acc_Account x ≠ Account) (Accounts trader) →
   OnChangedBalance self trader Account = (Return (), self)).
Proof.
  intros Hsel. unfold OnChangedBalance. rewrite Hsel.
  rewrite bool_decide_false by (intros Hne; by apply Hne).
  split.
  - intros pre acc post Hsplit Hpre Hacc.
    rewrite Hsplit, (find_first _ pre post acc).
    + done.
    + eapply Forall_impl; [exact Hpre |]. intros x Hx.
      by apply bool_decide_eq_false.
    + by apply bool_decide_eq_true.
  - intros Hnone. rewrite find_nothing; [done |].
    eapply Forall_impl; [exact Hnone |]. intros x Hx.
    by apply bool_decide_eq_false.
Qed.

Lemma balance_of_selected_account_witness :
  let self := __call__ (init (Some "ACC2") None) trader_two in
  _acc_name self = Some "ACC2" ∧
  (∀ pre acc post,
     Accounts trader_two = pre ++ acc :: post →
     Forall (λ x, acc_Account x ≠ "ACC2") pre →
     acc_Account acc = "ACC2" →
     let '(r, self') := OnChangedBalance self trader_two "ACC2" in
     r = Return () ∧
     getcash self' = Balance_Cash acc ∧ getvalue self' = Balance_NetWorth acc ∧
     startingcash self' = startingcash self ∧
     startingvalue self' = startingvalue self ∧
     _acc_name self' = Some "ACC2" ∧
     positions self' = positions self ∧ orderbyid self' = orderbyid self ∧
     notifs self' = notifs self) ∧
  (Forall (λ x, acc_Account x ≠ "ACC2") (Accounts trader_two) →
   OnChangedBalance self trader_two "ACC2" = (Return (), self)).
Proof.
  assert (Hsel : _acc_name (__call__ (init (Some "ACC2") None) trader_two)
                 = Some "ACC2") by reflexivity.
  split; [exact Hsel |].
  exact (balance_of_selected_account
           (__call__ (init (Some "ACC2") None) trader_two) trader_two "ACC2" Hsel).
Defined.

(** ** What an order callback touches *)

Lemma getposition_frame (self : VCBroker) (data : Data) (clone : bool) :
  let self' := (getposition self data clone).2 in
  p_account self' = p_account self ∧ comminfo self' = comminfo self ∧
  _acc_name self' = _acc_name self ∧
  startingcash self' = startingcash self ∧ cash self' = cash self ∧
  startingvalue self' = startingvalue self ∧ value self' = value self ∧
  orderbyid self' = orderbyid self ∧ notifs self' = notifs self ∧
  (∀ name, name ≠ _tradename data →
           positions self' !! name = positions self !! name) ∧
  (∀ name, is_Some (positions self !! name) → is_Some (positions self' !! name)).
Proof.
  unfold getposition.
  destruct (positions self !! _tradename data) as [pos|] eqn:Hpos; cbn.
  - done.
  - repeat split; try done.
    + intros name Hne. by rewrite lookup_insert_ne.
    + intros name Hsome. destruct (decide (_tradename data = name)) as [<-|Hne].
      * rewrite lookup_insert_eq. eauto.
      * by rewrite lookup_insert_ne.
Qed.

(** What [OnExecutedOrder] leaves behind for a registered order, whether or
    not the order carries a commission scheme. *)
Lemma OnExecutedOrder_shape (self : VCBroker) (ev : VCEvent) (partial : bool)
    (border : Order.t) :
  orderbyid self !! Some (OrderId ev) = Some border →
  ∃ (ps : gmap string Position.t) (pos : Position.t) (self' : VCBroker),
    (OnExecutedOrder self ev partial).2 = self' ∧
    positions self' = <[_tradename (Order.data border) := pos]> ps ∧
    (∀ name, name ≠ _tradename (Order.data border) →
             ps !! name = positions self !! name) ∧
    p_account self' = p_account self ∧ comminfo self' = comminfo self ∧
    _acc_name self' = _acc_name self ∧
    startingcash self' = startingcash self ∧ cash self' = cash self ∧
    startingvalue self' = startingvalue self ∧ value self' = value self ∧
    (orderbyid self' = orderbyid self ∧ notifs self' = notifs self ∨
     ∃ border',
       orderbyid self' = <[Some (OrderId ev) := border']> (orderbyid self) ∧
       notifs self' = notifs self ++ [Some border'] ∧
       Order.comminfo border' = Order.comminfo border).
Proof.
  intros Hfound. unfold OnExecutedOrder. rewrite Hfound.
  pose proof (getposition_frame self (Order.data border) false) as Hframe.
  destruct (getposition self (Order.data border) false) as [pos self1].
  cbn in Hframe.
  destruct Hframe as (Hp & Hc & Ha & Hsc & Hcash & Hsv & Hv & Hreg & Hq & Hps & _).
  destruct (Position.update pos _ (Price ev))
    as [[[[psize pprice] opened] closed] after].
  exists (positions self1), after.
  destruct (Order.comminfo border) as [ci|] eqn:Hci.
  - destruct partial;
      (eexists; split; [reflexivity |]; cbn;
       split; [reflexivity |]; split; [exact Hps |];
       repeat (split; [assumption |]);
       right; eexists; rewrite Hreg, Hq;
       split; [reflexivity | split; [reflexivity | exact Hci]]).
  - eexists. split; [reflexivity |]. cbn.
    split; [reflexivity |]. split; [exact Hps |].
    repeat (split; [assumption |]). left. by split.
Qed.

Lemma deliver_frame (self : VCBroker) (cb : Callback) :
  let self' := (deliver self cb).2 in
  let oid := Some (OrderId (payload cb)) in
  (cash self' = cash self ∧ value self' = value self ∧
   startingcash self' = startingcash self ∧
   startingvalue self' = startingvalue self ∧
   _acc_name self' = _acc_name self ∧ comminfo self' = comminfo self) ∧
  (∀ k, k ≠ oid → orderbyid self' !! k = orderbyid self !! k) ∧
  dom (orderbyid self') = dom (orderbyid self) ∧
  (∀ name,
     (∀ border, orderbyid self !! oid = Some border →
                name ≠ _tradename (Order.data border)) →
     positions self' !! name = positions self !! name) ∧
  match cb with
  | InMarket _ | Cancelled _ => positions self' = positions self
  | PartialExecuted _ | TotalExecuted _ => True
  end.
Proof.
  assert (Hsimple : ∀ (ev : VCEvent) (f : Order.t → Order.t) self',
    self' = match orderbyid self !! Some (OrderId ev) with
            | None => self
            | Some border =>
                notify (set_orderbyid
                          (<[Some (OrderId ev) := f border]> (orderbyid self)) self)
                       (f border)
            end →
    (cash self' = cash self ∧ value self' = value self ∧
     startingcash self' = startingcash self ∧
     startingvalue self' = startingvalue self ∧
     _acc_name self' = _acc_name self ∧ comminfo self' = comminfo self) ∧
    (∀ k, k ≠ Some (OrderId ev) → orderbyid self' !! k = orderbyid self !! k) ∧
    dom (orderbyid self') = dom (orderbyid self) ∧
    positions self' = positions self).
  { intros ev f self' ->.
    destruct (orderbyid self !! Some (OrderId ev)) as [border|] eqn:Hfound; [| done].
    cbn. repeat split; try done.
    - intros k Hk. by rewrite lookup_insert_ne.
    - apply dom_insert_lookup_L. eauto. }
  assert (Hexec : ∀ (ev : VCEvent) (partial : bool),
    let self' := (OnExecutedOrder self ev partial).2 in
    (cash self' = cash self ∧ value self' = value self ∧
     startingcash self' = startingcash self ∧
     startingvalue self' = startingvalue self ∧
     _acc_name self' = _acc_name self ∧ comminfo self' = comminfo self) ∧
    (∀ k, k ≠ Some (OrderId ev) → orderbyid self' !! k = orderbyid self !! k) ∧
    dom (orderbyid self') = dom (orderbyid self) ∧
    (∀ name,
       (∀ border, orderbyid self !! Some (OrderId ev) = Some border →
                  name ≠ _tradename (Order.data border)) →
       positions self' !! name = positions self !! name)).
  { intros ev partial self'.
    destruct (orderbyid self !! Some (OrderId ev)) as [border|] eqn:Hfound.
    - destruct (OnExecutedOrder_shape self ev partial border Hfound)
        as (ps & pos & s & Hs & Hpos & Hps & Hp & Hc & Ha & Hsc & Hcash
            & Hsv & Hv & Hreg).
      subst self'. rewrite Hs. clear Hs.
      split; [done |].
      split; [| split].
      + intros k Hk. destruct Hreg as [[-> _] | (border' & -> & _)]; [done |].
        by rewrite lookup_insert_ne.
      + destruct Hreg as [[-> _] | (border' & -> & _)]; [done |].
        apply dom_insert_lookup_L. eauto.
      + intros name Hname. specialize (Hname border eq_refl).
        rewrite Hpos, lookup_insert_ne by done. by apply Hps.
    - subst self'. unfold OnExecutedOrder. rewrite Hfound. done. }
  destruct cb as [ev | ev | ev | ev]; cbn.
  - destruct (Hsimple ev Order.accept (OnOrderInMarket self ev).2)
      as (H1 & H2 & H3 & H4).
    { unfold OnOrderInMarket. by destruct (orderbyid self !! Some (OrderId ev)). }
    repeat split; try done; try apply H1. intros name _. by rewrite H4.
  - destruct (Hsimple ev Order.cancel (OnCancelledOrder self ev).2)
      as (H1 & H2 & H3 & H4).
    { unfold OnCancelledOrder. by destruct (orderbyid self !! Some (OrderId ev)). }
    repeat split; try done; try apply H1. intros name _. by rewrite H4.
  - destruct (Hexec ev true) as (H1 & H2 & H3 & H4). done.
  - destruct (Hexec ev false) as (H1 & H2 & H3 & H4). done.
Qed.

(** X6. An order callback changes at most the registry entry of its own
    identifier, the position of that order's instrument and the queue.  The
    account figures and the commission table are untouched, the other
    registry entries and the set of registered identifiers stay the same,
    the positions of the other instruments stay the same, and an
    accepted-in-market or cancelled callback touches no position at all. *)
Theorem order_callback_frame (self : VCBroker) (cb : Callback) :
  let self' := (deliver self cb).2 in
  let oid := Some (OrderId (payload cb)) in
  (cash self' = cash self ∧ value self' = value self ∧
   startingcash self' = startingcash self ∧
   startingvalue self' = startingvalue self ∧
   _acc_name self' = _acc_name self ∧ comminfo self' = comminfo self) ∧
  (∀ k, k ≠ oid → orderbyid self' !! k = orderbyid self !! k) ∧
  dom (orderbyid self') = dom (orderbyid self) ∧
  (∀ name,
     (∀ border, orderbyid self !! oid = Some border →
                name ≠ _tradename (Order.data border)) →
     positions self' !! name = positions self !! name) ∧
  match cb with
  | InMarket _ | Cancelled _ => positions self' = positions self
  | PartialExecuted _ | TotalExecuted _ => True
  end.
Proof. exact (deliver_frame self cb). Qed.

(** ** Invariants of a running broker *)

(** The broker [submit] leaves behind: the one it was given, or that broker
    with one order registered and notified. *)
Lemma submit_shape (store : VCStore) (self : VCBroker) (order : Order.t)
    (vco : gmap string pyval) :
  (submit store self order vco).2 = self ∨
  ∃ oid c order',
    getcommissioninfo self (Order.data order) = Return c ∧
    Order.comminfo order' = c ∧
    (submit store self order vco).2 =
      notify (set_orderbyid (<[oid := order']> (orderbyid self)) self) order'.
Proof.
  unfold submit.
  destruct (send_args vco ≫= _) as [oid|]; [| by left].
  change (Order.data (Order.set_vcorder oid (Order.submit order)))
    with (Order.data order).
  destruct (getcommissioninfo self (Order.data order)) as [c|]; [| by left].
  right. eexists oid, c, _. split; [reflexivity |].
  split; [| reflexivity]. reflexivity.
Qed.

Lemma buy_shape DAY store now self owner data size price plimit exectype
    valid tradeid kwargs :
  (buy DAY store now self owner data size price plimit exectype valid
       tradeid kwargs).2 = self ∨
  ∃ order vco,
    (buy DAY store now self owner data size price plimit exectype valid
         tradeid kwargs).2 = (submit store self order vco).2.
Proof.
  unfold buy. cbv zeta.
  destruct (_makeorder _ _ _ _ _ _ _ _ _ _ _ _ _ _) as [vco|]; [| by left].
  right. by eexists _, vco.
Qed.

Lemma sell_shape DAY store now self owner data size price plimit exectype
    valid tradeid kwargs :
  (sell DAY store now self owner data size price plimit exectype valid
        tradeid kwargs).2 = self ∨
  ∃ order vco,
    (sell DAY store now self owner data size price plimit exectype valid
          tradeid kwargs).2 = (submit store self order vco).2.
Proof.
  unfold sell. cbv zeta.
  destruct (_makeorder _ _ _ _ _ _ _ _ _ _ _ _ _ _) as [vco|]; [| by left].
  right. by eexists _, vco.
Qed.

(** With the commission table of [__init__] the lookup of a scheme always
    succeeds. *)
Lemma getcommissioninfo_init_table (self : VCBroker) (data : Data)
    (commission : option CommInfo) :
  comminfo self = {[ None := commission ]} →
  getcommissioninfo self data =
    Return (Some (default
                    (VCCommInfo (syminfo_PointValue data)
                                (bool_decide (syminfo_Type data ∈ _futlikes)))
                    commission)).
Proof.
  intros Htbl. unfold getcommissioninfo. rewrite Htbl.
  rewrite lookup_singleton_ne by done. rewrite lookup_singleton_eq.
  by destruct commission.
Qed.

Lemma submit_invariants (store : VCStore) (self : VCBroker) (order : Order.t)
    (vco : gmap string pyval) (commission : option CommInfo) :
  comminfo self = {[ None := commission ]} →
  registry_ok self →
  let self' := (submit store self order vco).2 in
  comminfo self' = comminfo self ∧ p_account self' = p_account self ∧
  registry_ok self' ∧
  (∀ k, is_Some (orderbyid self !! k) → is_Some (orderbyid self' !! k)) ∧
  positions self' = positions self.
Proof.
  intros Htbl Hreg self'. subst self'.
  destruct (submit_shape store self order vco)
    as [-> | (oid & c & order' & Hc & Hci & ->)]; [done |].
  rewrite (getcommissioninfo_init_table _ _ _ Htbl) in Hc.
  injection Hc as <-. unfold registry_ok, notify, set_notifs, set_orderbyid.
  cbn [comminfo p_account orderbyid positions]. repeat split; try done.
  - intros k o. destruct (decide (oid = k)) as [<-|Hne].
    + rewrite lookup_insert_eq. intros [= <-]. rewrite Hci. eauto.
    + rewrite lookup_insert_ne by done. apply Hreg.
  - intros k Hk. destruct (decide (oid = k)) as [<-|Hne].
    + rewrite lookup_insert_eq. eauto.
    + by rewrite lookup_insert_ne.
Qed.

Lemma deliver_registry_ok (self : VCBroker) (cb : Callback) :
  registry_ok self →
  (deliver self cb).1 = Return () ∧ registry_ok (deliver self cb).2.
Proof.
  intros Hreg.
  destruct (orderbyid self !! Some (OrderId (payload cb))) as [border|] eqn:Hfound.
  - destruct (Hreg _ _ Hfound) as [ci Hci].
    destruct (deliver_found self cb border ci Hfound Hci)
      as (border' & self' & -> & Hreg' & _ & _ & Hci').
    split; [done |]. cbn [snd]. intros k o. rewrite Hreg'.
    destruct (decide (Some (OrderId (payload cb)) = k)) as [<-|Hne].
    + rewrite lookup_insert_eq. intros [= <-]. eauto.
    + rewrite lookup_insert_ne by done. apply Hreg.
  - destruct cb as [ev | ev | ev | ev]; cbn in Hfound |- *;
      unfold OnPartialExecutedOrder, OnTotalExecutedOrder, OnExecutedOrder,
        OnOrderInMarket, OnCancelledOrder;
      rewrite Hfound; done.
Qed.

Lemma deliver_keeps_positions (self : VCBroker) (cb : Callback) (name : string) :
  is_Some (positions self !! name) →
  is_Some (positions (deliver self cb).2 !! name).
Proof.
  intros Hname.
  assert (Hexec : ∀ ev partial,
    is_Some (positions (OnExecutedOrder self ev partial).2 !! name)).
  { intros ev partial.
    destruct (orderbyid self !! Some (OrderId ev)) as [border|] eqn:Hfound.
    - destruct (OnExecutedOrder_shape self ev partial border Hfound)
        as (ps & pos & s' & -> & -> & Hps & _).
      destruct (decide (_tradename (Order.data border) = name)) as [<-|Hne].
      + rewrite lookup_insert_eq. eauto.
      + rewrite lookup_insert_ne by done. by rewrite Hps.
    - unfold OnExecutedOrder. by rewrite Hfound. }
  destruct (deliver_frame self cb) as (_ & _ & _ & _ & Hpos).
  destruct cb as [ev | ev | ev | ev]; cbn in Hpos |- *.
  - by rewrite Hpos.
  - by rewrite Hpos.
  - apply Hexec.
  - apply Hexec.
Qed.

Lemma step_keeps (self self' : VCBroker) :
  step self self' →
  (∀ k, is_Some (orderbyid self !! k) → is_Some (orderbyid self' !! k)) ∧
  (∀ n, is_Some (positions self !! n) → is_Some (positions self' !! n)).
Proof.
  assert (Hsubmit : ∀ store order vco,
    (∀ k, is_Some (orderbyid self !! k) →
          is_Some (orderbyid (submit store self order vco).2 !! k)) ∧
    (∀ n, is_Some (positions self !! n) →
          is_Some (positions (submit store self order vco).2 !! n))).
  { intros store order vco.
    destruct (submit_shape store self order vco)
      as [-> | (oid & c & order' & _ & _ & ->)]; [done |].
    unfold notify, set_notifs, set_orderbyid. cbn [orderbyid positions].
    split; [| done]. intros k Hk.
    destruct (decide (oid = k)) as [<-|Hne].
    - rewrite lookup_insert_eq. eauto.
    - by rewrite lookup_insert_ne. }
  destruct 1 as [self trader | store self order vco
                | DAY store now self owner data size price plimit exectype
                      valid tradeid kwargs
                | DAY store now self owner data size price plimit exectype
                      valid tradeid kwargs
                | self cb | self trader Account | self | self
                | self order | self data clone].
  - unfold __call__. by destruct (find _ _).
  - apply Hsubmit.
  - destruct (buy_shape DAY store now self owner data size price plimit
                exectype valid tradeid kwargs) as [-> | (o & vco & ->)];
      [done | apply Hsubmit].
  - destruct (sell_shape DAY store now self owner data size price plimit
                exectype valid tradeid kwargs) as [-> | (o & vco & ->)];
      [done | apply Hsubmit].
  - split.
    + intros k Hk. apply elem_of_dom.
      destruct (deliver_frame self cb) as (_ & _ & -> & _).
      by apply elem_of_dom.
    + intros n. apply deliver_keeps_positions.
  - unfold OnChangedBalance. destruct (_acc_name self); [| done].
    case_bool_decide; [done |]. by destruct (find _ _).
  - done.
  - unfold get_notification. by destruct (notifs self).
  - done.
  - destruct (getposition_frame self data clone)
      as (_ & _ & _ & _ & _ & _ & _ & -> & _ & _ & Hkeep). done.
Qed.

Lemma step_invariants (commission : option CommInfo) (self self' : VCBroker) :
  step self self' →
  comminfo self = {[ None := commission ]} → registry_ok self →
  comminfo self' = {[ None := commission ]} ∧ registry_ok self'.
Proof.
  intros Hstep Htbl Hreg.
  assert (Hsubmit : ∀ store order vco,
    comminfo (submit store self order vco).2 = {[ None := commission ]} ∧
    registry_ok (submit store self order vco).2).
  { intros store order vco.
    destruct (submit_invariants store self order vco commission Htbl Hreg)
      as (-> & _ & Hreg' & _). done. }
  destruct Hstep as [self trader | store self order vco
                | DAY store now self owner data size price plimit exectype
                      valid tradeid kwargs
                | DAY store now self owner data size price plimit exectype
                      valid tradeid kwargs
                | self cb | self trader Account | self | self
                | self order | self data clone].
  - unfold __call__. by destruct (find _ _).
  - apply Hsubmit.
  - destruct (buy_shape DAY store now self owner data size price plimit
                exectype valid tradeid kwargs) as [-> | (o & vco & ->)];
      [done | apply Hsubmit].
  - destruct (sell_shape DAY store now self owner data size price plimit
                exectype valid tradeid kwargs) as [-> | (o & vco & ->)];
      [done | apply Hsubmit].
  - destruct (deliver_frame self cb) as ((_ & _ & _ & _ & _ & ->) & _).
    split; [done |]. by apply deliver_registry_ok.
  - unfold OnChangedBalance. destruct (_acc_name self); [| done].
    case_bool_decide; [done |]. by destruct (find _ _).
  - done.
  - unfold get_notification. by destruct (notifs self).
  - done.
  - destruct (getposition_frame self data clone)
      as (_ & -> & _ & _ & _ & _ & _ & Hsame & _). split; [done |].
    unfold registry_ok. by rewrite Hsame.
Qed.

Lemma reachable_invariants (account : option string)
    (commission : option CommInfo) (self : VCBroker) :
  reachable account commission self →
  comminfo self = {[ None := commission ]} ∧ registry_ok self.
Proof.
  induction 1 as [| self self' _ [Htbl Hreg] Hstep].
  - split; [done |]. intros oid order Hin.
    unfold init in Hin. cbn [orderbyid] in Hin. by rewrite lookup_empty in Hin.
  - by apply (step_invariants commission self self').
Qed.

(** X7. In every broker that [__init__] and any sequence of operations lead
    to, each registered order carries a commission scheme, and therefore no
    order callback raises, whether its identifier is registered or not. *)
Theorem no_order_callback_raises (account : option string)
    (commission : option CommInfo) (self : VCBroker) :
  reachable account commission self →
  registry_ok self ∧ ∀ cb, (deliver self cb).1 = Return ().
Proof.
  intros Hreach.
  destruct (reachable_invariants account commission self Hreach) as [_ Hreg].
  split; [exact Hreg |]. intros cb. by apply deliver_registry_ok.
Qed.

Lemma no_order_callback_raises_witness :
  reachable None None broker_A1 ∧
  registry_ok broker_A1 ∧ ∀ cb, (deliver broker_A1 cb).1 = Return ().
Proof.
  assert (Hreach : reachable None None broker_A1).
  { exact (reachable_step None None _ _ (reachable_init None None)
             (step_buy 0 store_A1 0 (init None None) "strategy" data_X 10
                       None None (Some Market) VNone 0 ∅)). }
  split; [exact Hreach |].
  exact (no_order_callback_raises None None broker_A1 Hreach).
Defined.

(** X8. The order in which [getcommissioninfo] resolves a scheme, for any
    commission table: an entry for the instrument wins, whatever the
    default is; without one the default under [None] is returned when it
    is a scheme; when the default is [None] a [VCCommInfo] is built whose
    multiplier is the point value of the instrument and whose [stocklike]
    flag is set exactly when the type of the instrument is among the
    future-like ones; the lookup raises [KeyError] exactly when the table
    has neither an entry for the instrument nor the key [None]. *)
Theorem commission_scheme_resolution (self : VCBroker) (data : Data) :
  let name := _tradename data in
  (∀ c, comminfo self !! Some name = Some c →
        getcommissioninfo self data = Return c) ∧
  (∀ c, comminfo self !! Some name = None →
        comminfo self !! None = Some (Some c) →
        getcommissioninfo self data = Return (Some c)) ∧
  (comminfo self !! Some name = None → comminfo self !! None = Some None →
   ∃ c, getcommissioninfo self data = Return (Some c) ∧
        comm_mult c = syminfo_PointValue data ∧
        (comm_stocklike c = true ↔ syminfo_Type data ∈ _futlikes) ∧
        ∀ size price,
          getoperationcost c size price = (inject_Z (Z.abs size) * price)%Q ∧
          getvaluesize c size price = (inject_Z (Z.abs size) * price)%Q) ∧
  (getcommissioninfo self data = Raise KeyError ↔
   comminfo self !! Some name = None ∧ comminfo self !! None = None).
Proof.
  cbv zeta. unfold getcommissioninfo.
  split; [| split; [| split]].
  - by intros c ->.
  - by intros c -> ->.
  - intros -> ->. eexists. split; [reflexivity |].
    split; [reflexivity |]. split; [| done].
    cbn [comm_stocklike VCCommInfo]. apply bool_decide_eq_true.
  - destruct (comminfo self !! Some (_tradename data)) as [c|].
    + split; [discriminate | by intros [? ?]].
    + destruct (comminfo self !! None) as [[c|]|].
      * split; [discriminate | by intros [? ?]].
      * split; [discriminate | by intros [? ?]].
      * done.
Qed.

(** X9. No operation removes anything: an identifier that is registered
    stays registered and an instrument that has a position keeps one,
    through any sequence of operations. *)
Theorem nothing_is_removed (self self' : VCBroker) :
  rtc step self self' →
  (∀ k, is_Some (orderbyid self !! k) → is_Some (orderbyid self' !! k)) ∧
  (∀ n, is_Some (positions self !! n) → is_Some (positions self' !! n)).
Proof.
  induction 1 as [self | self mid self' Hstep _ [IHreg IHpos]]; [done |].
  destruct (step_keeps self mid Hstep) as [Hreg Hpos].
  split; eauto.
Qed.

Lemma nothing_is_removed_witness :
  let self' := (deliver (next broker_A1) (TotalExecuted fill_A1)).2 in
  rtc step broker_A1 self' ∧
  (∀ k, is_Some (orderbyid broker_A1 !! k) → is_Some (orderbyid self' !! k)) ∧
  (∀ n, is_Some (positions broker_A1 !! n) → is_Some (positions self' !! n)).
Proof.
  assert (Hrun : rtc step broker_A1
                   (deliver (next broker_A1) (TotalExecuted fill_A1)).2).
  { eapply rtc_l; [exact (step_next broker_A1) |].
    eapply rtc_l;
      [exact (step_deliver (next broker_A1) (TotalExecuted fill_A1)) |].
    apply rtc_refl. }
  split; [exact Hrun |].
  exact (nothing_is_removed broker_A1
           (deliver (next broker_A1) (TotalExecuted fill_A1)).2 Hrun).
Defined.

(** ** The fields of a translated request *)

(** Apart from the time restriction and the valid-until date, a request
    built without extra fields is the core request. *)
Lemma _makeorder_base_lookup DAY store now self ordtype owner data size
    price plimit (et : ExecType) valid tradeid (b : gmap string pyval)
    (k : string) :
  _makeorder DAY store now self ordtype owner data size price plimit
             (Some et) valid tradeid ∅ = Return b →
  k ≠ "TimeRestriction" → k ≠ "ValidDate" →
  b !! k = request_core store self ordtype data size price plimit et tradeid !! k.
Proof.
  intros Hb Htr Hvd. revert Hb. run_tables.
  assert (Htr' : "TimeRestriction" ≠ k) by congruence.
  assert (Hvd' : "ValidDate" ≠ k) by congruence.
  destruct (decide (et = Close)) as [-> | Hne].
  - rewrite bool_decide_true by reflexivity.
    cbn -[setattr apply_kwargs pretty].
    intros [= <-]. rewrite apply_kwargs_empty. unfold setattr at 1 2.
    rewrite (lookup_insert_ne _ "TimeRestriction" k) by exact Htr'.
    rewrite (lookup_insert_ne _ "ValidDate" k) by exact Hvd'.
    exact eq_refl.
  - rewrite (bool_decide_false (Some et = Some Close)) by congruence.
    destruct et; [ | exfalso; by apply Hne | | | ];
      (destruct valid as [| | | | | d | t | td];
       try destruct (bool_decide (td = DAY));
       unfold datetime_add;
       try destruct (datetime_in_range (now + td));
       cbn -[setattr apply_kwargs pretty];
       try (intros Hraise; discriminate Hraise);
       intros [= <-]; rewrite apply_kwargs_empty; unfold setattr at 1 2 3;
       rewrite ?(lookup_insert_ne _ "ValidDate" k) by exact Hvd';
       rewrite ?(lookup_insert_ne _ "TimeRestriction" k) by exact Htr';
       rewrite ?(lookup_insert_ne _ "ValidDate" k) by exact Hvd';
       exact eq_refl).
Qed.

Ltac read_core :=
  unfold setattr;
  repeat first [ rewrite lookup_insert_eq
               | rewrite lookup_insert_ne by discriminate ];
  exact eq_refl.

Lemma request_core_fields (store : VCStore) (self : VCBroker)
    (ordtype : OrdType) (data : Data) (size : Z) (price plimit : option Q)
    (et : ExecType) (tradeid : Z) :
  let core := request_core store self ordtype data size price plimit et tradeid in
  core !! "Account" = Some (str_val (_acc_name self)) ∧
  core !! "SymbolCode" = Some (VStr (_tradename data)) ∧
  core !! "OrderType" =
    Some (VConst match et with
                 | Market | Close => OT_Market
                 | Limit => OT_Limit
                 | Stop => OT_StopMarket
                 | StopLimit => OT_StopLimit
                 end) ∧
  core !! "OrderSide" =
    Some (VConst match ordtype with Buy => OS_Buy | Sell => OS_Sell end) ∧
  core !! "VolumeRestriction" = Some (VConst VR_NoRestriction) ∧
  core !! "HideVolume" = Some (VInt 0) ∧
  core !! "MinVolume" = Some (VInt 0) ∧
  core !! "UserOrderId" = Some (VStr "") ∧
  core !! "ExtendedInfo" =
    Some (VStr (if bool_decide (tradeid ≠ 0)
                then "TradeId " +:+ pretty tradeid else "")) ∧
  core !! "Volume" = Some (VInt (Z.abs size)) ∧
  core !! "StopPrice" =
    Some match et with
         | Stop | StopLimit => price_val price
         | Market | Close | Limit => VFloat 0
         end ∧
  core !! "Price" =
    Some match et with
         | Limit => price_val (py_or price plimit)
         | StopLimit => price_val plimit
         | Market | Close | Stop => VFloat 0
         end.
Proof.
  unfold request_core. cbv zeta.
  destruct et, (bool_decide (tradeid ≠ 0));
    (split; [read_core |]); (split; [read_core |]); (split; [read_core |]);
    (split; [read_core |]); (split; [read_core |]); (split; [read_core |]);
    (split; [read_core |]); (split; [read_core |]); (split; [read_core |]);
    (split; [read_core |]); (split; read_core).
Qed.

Lemma _makeorder_without_kind DAY store now self ordtype owner data size
    price plimit valid tradeid (kwargs : gmap string pyval) :
  _makeorder DAY store now self ordtype owner data size price plimit
             None valid tradeid kwargs = Raise KeyError.
Proof. reflexivity. Qed.

(** A field of the core request shows in the translated request unless
    [kwargs] names it. *)
Lemma translated_field DAY store now self ordtype owner data size price
    plimit (et : ExecType) valid tradeid (kwargs vco : gmap string pyval)
    (k : string) (v : pyval) :
  _makeorder DAY store now self ordtype owner data size price plimit
             (Some et) valid tradeid kwargs = Return vco →
  k ≠ "TimeRestriction" → k ≠ "ValidDate" →
  request_core store self ordtype data size price plimit et tradeid !! k = Some v →
  field_set_to vco kwargs k v.
Proof.
  intros Hvco Htr Hvd Hcore. rewrite _makeorder_kwargs_last in Hvco.
  destruct (_makeorder DAY store now self ordtype owner data size price plimit
              (Some et) valid tradeid ∅) as [b|] eqn:Hb; [| discriminate Hvco].
  injection Hvco as <-. unfold field_set_to.
  rewrite apply_kwargs_lookup.
  rewrite (_makeorder_base_lookup _ _ _ _ _ _ _ _ _ _ _ _ _ _ _ Hb Htr Hvd).
  by rewrite Hcore.
Qed.

(** A translated request has a time restriction and a valid-until
    attribute. *)
Lemma translated_restriction DAY store now self ordtype owner data size price
    plimit (et : ExecType) valid tradeid (kwargs vco : gmap string pyval) :
  _makeorder DAY store now self ordtype owner data size price plimit
             (Some et) valid tradeid kwargs = Return vco →
  is_Some (vco !! "TimeRestriction") ∧ is_Some (vco !! "ValidDate").
Proof.
  intros Hvco.
  assert (Hbase : ∃ tr vd,
    translates_to
      (_makeorder DAY store now self ordtype owner data size price plimit
                  (Some et) valid tradeid ∅) tr vd).
  { destruct (decide (et = Close)) as [-> | Hne].
    - eexists _, _. apply _makeorder_close.
    - pose proof (_makeorder_validity DAY store now self ordtype owner data
                    size price plimit et valid tradeid Hne) as Hval.
      cbv zeta in Hval.
      destruct valid as [| | | | | d | t | td];
        try (rewrite _makeorder_kwargs_last, Hval in Hvco; discriminate Hvco);
        try (eexists _, _; exact Hval).
      destruct (bool_decide (td = DAY)); [eexists _, _; exact Hval |].
      destruct (datetime_in_range (now + td)); [eexists _, _; exact Hval |].
      rewrite _makeorder_kwargs_last, Hval in Hvco. discriminate Hvco. }
  destruct Hbase as (tr & vd & Hbase).
  apply (translates_to_kwargs _ _ _ _ _ _ _ _ _ _ _ _ _ kwargs) in Hbase.
  destruct Hbase as (vco' & Hvco' & Htr & Hvd).
  assert (Heq : Return vco = Return vco') by exact (eq_trans (eq_sym Hvco) Hvco').
  injection Heq as <-. rewrite Htr, Hvd. eauto.
Qed.

(** X10. In every request the translator returns, unless an extra keyword
    field names the attribute: the account is the selected account, the
    symbol is the trade name of the data, the order type follows the kind
    (market and close both give the market type), the side follows buy or
    sell, the volume is the absolute value of the size, volume restriction,
    hidden and minimum volume are the fixed defaults, and the extended
    information is [TradeId n] for a trade id [n] other than 0 and empty
    otherwise. *)
Theorem translated_routing_fields DAY store now self ordtype owner data size
    price plimit (et : ExecType) valid tradeid (kwargs vco : gmap string pyval) :
  _makeorder DAY store now self ordtype owner data size price plimit
             (Some et) valid tradeid kwargs = Return vco →
  field_set_to vco kwargs "Account" (str_val (_acc_name self)) ∧
  field_set_to vco kwargs "SymbolCode" (VStr (_tradename data)) ∧
  field_set_to vco kwargs "OrderType"
    (VConst match et with
            | Market | Close => OT_Market
            | Limit => OT_Limit
            | Stop => OT_StopMarket
            | StopLimit => OT_StopLimit
            end) ∧
  field_set_to vco kwargs "OrderSide"
    (VConst match ordtype with Buy => OS_Buy | Sell => OS_Sell end) ∧
  field_set_to vco kwargs "Volume" (VInt (Z.abs size)) ∧
  field_set_to vco kwargs "VolumeRestriction" (VConst VR_NoRestriction) ∧
  field_set_to vco kwargs "HideVolume" (VInt 0) ∧
  field_set_to vco kwargs "MinVolume" (VInt 0) ∧
  field_set_to vco kwargs "UserOrderId" (VStr "") ∧
  field_set_to vco kwargs "ExtendedInfo"
    (VStr (if bool_decide (tradeid ≠ 0)
           then "TradeId " +:+ pretty tradeid else "")).
Proof.
  intros Hvco.
  destruct (request_core_fields store self ordtype data size price plimit et
              tradeid)
    as (H1 & H2 & H3 & H4 & H5 & H6 & H7 & H8 & H9 & H10 & _ & _).
  assert (Hfield := λ k v Htr Hvd,
    translated_field DAY store now self ordtype owner data size price plimit
      et valid tradeid kwargs vco k v Hvco Htr Hvd).
  repeat split; apply Hfield; (discriminate || assumption).
Qed.

Lemma translated_routing_fields_witness :
  _makeorder 0 store_A1 0 (init None None) Buy "strategy" data_X 10
             None None (Some Market) VNone 0 ∅ = Return request_X ∧
  field_set_to request_X ∅ "Account" (str_val (_acc_name (init None None))) ∧
  field_set_to request_X ∅ "SymbolCode" (VStr (_tradename data_X)) ∧
  field_set_to request_X ∅ "OrderType" (VConst OT_Market) ∧
  field_set_to request_X ∅ "OrderSide" (VConst OS_Buy) ∧
  field_set_to request_X ∅ "Volume" (VInt (Z.abs 10)) ∧
  field_set_to request_X ∅ "VolumeRestriction" (VConst VR_NoRestriction) ∧
  field_set_to request_X ∅ "HideVolume" (VInt 0) ∧
  field_set_to request_X ∅ "MinVolume" (VInt 0) ∧
  field_set_to request_X ∅ "UserOrderId" (VStr "") ∧
  field_set_to request_X ∅ "ExtendedInfo"
    (VStr (if bool_decide (0 ≠ 0) then "TradeId " +:+ pretty 0 else "")).
Proof.
  assert (Hvco : _makeorder 0 store_A1 0 (init None None) Buy "strategy" data_X
                   10 None None (Some Market) VNone 0 ∅ = Return request_X).
  { vm_cast_no_check (@eq_refl _ (@Return (gmap string pyval) request_X)). }
  split; [exact Hvco |].
  exact (translated_routing_fields 0 store_A1 0 (init None None) Buy "strategy"
           data_X 10 None None Market VNone 0 ∅ request_X Hvco).
Defined.

(** X11. The price fields of a returned request, unless an extra keyword
    field names them: a market or close order carries no price and no stop
    price (both 0.0); a limit order carries [price], or [plimit] when
    [price] is [None] or zero; a stop order carries [price] as stop price;
    a stop-limit order carries [price] as stop price and [plimit] as
    price. *)
Theorem translated_price_fields DAY store now self ordtype owner data size
    price plimit (et : ExecType) valid tradeid (kwargs vco : gmap string pyval) :
  _makeorder DAY store now self ordtype owner data size price plimit
             (Some et) valid tradeid kwargs = Return vco →
  field_set_to vco kwargs "StopPrice"
    match et with
    | Stop | StopLimit => price_val price
    | Market | Close | Limit => VFloat 0
    end ∧
  field_set_to vco kwargs "Price"
    match et with
    | Limit =>
        match price with
        | Some p => if Qeq_bool p 0 then price_val plimit else VFloat p
        | None => price_val plimit
        end
    | StopLimit => price_val plimit
    | Market | Close | Stop => VFloat 0
    end.
Proof.
  intros Hvco.
  destruct (request_core_fields store self ordtype data size price plimit et
              tradeid)
    as (_ & _ & _ & _ & _ & _ & _ & _ & _ & _ & Hstop & Hprice).
  assert (Hfield := λ k v Htr Hvd,
    translated_field DAY store now self ordtype owner data size price plimit
      et valid tradeid kwargs vco k v Hvco Htr Hvd).
  split; apply Hfield; try discriminate; [exact Hstop |].
  rewrite Hprice. f_equal.
  destruct et; try reflexivity.
  unfold py_or, truthy_price. destruct price as [p|]; [| reflexivity].
  by destruct (Qeq_bool p 0).
Qed.

Lemma translated_price_fields_witness :
  _makeorder 0 store_A1 0 (init None None) Buy "strategy" data_X 10
             None None (Some Market) VNone 0 ∅ = Return request_X ∧
  field_set_to request_X ∅ "StopPrice" (VFloat 0) ∧
  field_set_to request_X ∅ "Price" (VFloat 0).
Proof.
  assert (Hvco : _makeorder 0 store_A1 0 (init None None) Buy "strategy" data_X
                   10 None None (Some Market) VNone 0 ∅ = Return request_X).
  { vm_cast_no_check (@eq_refl _ (@Return (gmap string pyval) request_X)). }
  split; [exact Hvco |].
  exact (translated_price_fields 0 store_A1 0 (init None None) Buy "strategy"
           data_X 10 None None Market VNone 0 ∅ request_X Hvco).
Defined.

(** The ten attributes [submit] reads are all there in a translated
    request. *)
Lemma translated_request_sendable DAY store now self ordtype owner data size
    price plimit exectype valid tradeid (kwargs vco : gmap string pyval) :
  _makeorder DAY store now self ordtype owner data size price plimit
             exectype valid tradeid kwargs = Return vco →
  ∃ args,
    send_args vco = Return args ∧
    vco !! "Account" = Some (sa_Account args) ∧
    vco !! "SymbolCode" = Some (sa_SymbolCode args) ∧
    vco !! "OrderType" = Some (sa_OrderType args) ∧
    vco !! "OrderSide" = Some (sa_OrderSide args) ∧
    vco !! "Volume" = Some (sa_Volume args) ∧
    vco !! "Price" = Some (sa_Price args) ∧
    vco !! "StopPrice" = Some (sa_StopPrice args) ∧
    vco !! "VolumeRestriction" = Some (sa_VolumeRestriction args) ∧
    vco !! "TimeRestriction" = Some (sa_TimeRestriction args) ∧
    vco !! "ValidDate" = Some (sa_ValidDate args).
Proof.
  intros Hvco.
  destruct exectype as [et|];
    [| rewrite _makeorder_without_kind in Hvco; discriminate Hvco].
  destruct (translated_restriction _ _ _ _ _ _ _ _ _ _ _ _ _ _ _ Hvco)
    as [[tr Htr] [vd Hvd]].
  destruct (request_core_fields store self ordtype data size price plimit et
              tradeid)
    as (H1 & H2 & H3 & H4 & H5 & _ & _ & _ & _ & H10 & H11 & H12).
  assert (Hfield := λ k v Hk1 Hk2,
    translated_field DAY store now self ordtype owner data size price plimit
      et valid tradeid kwargs vco k v Hvco Hk1 Hk2).
  unfold field_set_to in Hfield.
  unfold send_args, getattr.
  rewrite (Hfield "Account" _ ltac:(discriminate) ltac:(discriminate) H1).
  rewrite (Hfield "SymbolCode" _ ltac:(discriminate) ltac:(discriminate) H2).
  rewrite (Hfield "OrderType" _ ltac:(discriminate) ltac:(discriminate) H3).
  rewrite (Hfield "OrderSide" _ ltac:(discriminate) ltac:(discriminate) H4).
  rewrite (Hfield "Volume" _ ltac:(discriminate) ltac:(discriminate) H10).
  rewrite (Hfield "Price" _ ltac:(discriminate) ltac:(discriminate) H12).
  rewrite (Hfield "StopPrice" _ ltac:(discriminate) ltac:(discriminate) H11).
  rewrite (Hfield "VolumeRestriction" _ ltac:(discriminate) ltac:(discriminate) H5).
  rewrite Htr, Hvd. cbn.
  eexists. split; [reflexivity |]. cbn. repeat split.
Qed.

(** X12. Whatever the translator returns can be sent: [submit] finds each
    of the ten attributes it passes to [SendOrder] on the request, so it
    never fails with a missing attribute, and it passes them on as they
    are. *)
Theorem translated_request_is_sendable DAY store now self ordtype owner data
    size price plimit exectype valid tradeid (kwargs vco : gmap string pyval) :
  _makeorder DAY store now self ordtype owner data size price plimit
             exectype valid tradeid kwargs = Return vco →
  ∃ args,
    send_args vco = Return args ∧
    vco !! "Account" = Some (sa_Account args) ∧
    vco !! "SymbolCode" = Some (sa_SymbolCode args) ∧
    vco !! "OrderType" = Some (sa_OrderType args) ∧
    vco !! "OrderSide" = Some (sa_OrderSide args) ∧
    vco !! "Volume" = Some (sa_Volume args) ∧
    vco !! "Price" = Some (sa_Price args) ∧
    vco !! "StopPrice" = Some (sa_StopPrice args) ∧
    vco !! "VolumeRestriction" = Some (sa_VolumeRestriction args) ∧
    vco !! "TimeRestriction" = Some (sa_TimeRestriction args) ∧
    vco !! "ValidDate" = Some (sa_ValidDate args).
Proof. apply translated_request_sendable. Qed.

Lemma translated_request_is_sendable_witness :
  _makeorder 0 store_A1 0 (init None None) Buy "strategy" data_X 10
             None None (Some Market) VNone 0 ∅ = Return request_X ∧
  ∃ args,
    send_args request_X = Return args ∧
    request_X !! "Account" = Some (sa_Account args) ∧
    request_X !! "SymbolCode" = Some (sa_SymbolCode args) ∧
    request_X !! "OrderType" = Some (sa_OrderType args) ∧
    request_X !! "OrderSide" = Some (sa_OrderSide args) ∧
    request_X !! "Volume" = Some (sa_Volume args) ∧
    request_X !! "Price" = Some (sa_Price args) ∧
    request_X !! "StopPrice" = Some (sa_StopPrice args) ∧
    request_X !! "VolumeRestriction" = Some (sa_VolumeRestriction args) ∧
    request_X !! "TimeRestriction" = Some (sa_TimeRestriction args) ∧
    request_X !! "ValidDate" = Some (sa_ValidDate args).
Proof.
  assert (Hvco : _makeorder 0 store_A1 0 (init None None) Buy "strategy" data_X
                   10 None None (Some Market) VNone 0 ∅ = Return request_X).
  { vm_cast_no_check (@eq_refl _ (@Return (gmap string pyval) request_X)). }
  split; [exact Hvco |].
  exact (translated_request_is_sendable 0 store_A1 0 (init None None) Buy
           "strategy" data_X 10 None None (Some Market) VNone 0 ∅ request_X Hvco).
Defined.

(** ** Submission from end to end *)


(** What [submit] does when the venue answers and a scheme is found. *)
Lemma submit_success (store : VCStore) (self : VCBroker) (order : Order.t)
    (vco : gmap string pyval) (args : SendArgs) (oid : option string)
    (c : option CommInfo) :
  send_args vco = Return args →
  vcct_SendOrder store args = Return oid →
  getcommissioninfo self (Order.data order) = Return c →
  let order' :=
    Order.addcomminfo c (Order.set_vcorder oid (Order.submit order)) in
  submit store self order vco =
    (Return order',
     notify (set_orderbyid (<[oid := order']> (orderbyid self)) self) order').
Proof.
  intros Hargs Hsend Hc. unfold submit. rewrite Hargs. cbn [mbind result_bind].
  rewrite Hsend.
  change (Order.data (Order.set_vcorder oid (Order.submit order)))
    with (Order.data order).
  by rewrite Hc.
Qed.

(** X14. [submit] with a venue that answers: when [SendOrder] returns and a
    commission scheme is found, the order comes back submitted, with what
    [SendOrder] returned (an identifier, or [None]) and the scheme
    attached; it is registered under the returned value (replacing an order
    registered under it before), one snapshot of it is appended to the
    queue, the other registry entries and the positions and account figures
    are untouched, and a callback for the identifier now finds the
    order. *)
Theorem submit_registers (store : VCStore) (self : VCBroker) (order : Order.t)
    (vco : gmap string pyval) (args : SendArgs) (oid : option string)
    (c : option CommInfo) :
  send_args vco = Return args →
  vcct_SendOrder store args = Return oid →
  getcommissioninfo self (Order.data order) = Return c →
  ∃ order' self',
    submit store self order vco = (Return order', self') ∧
    Order.status order' = Submitted ∧ Order.vcorder order' = oid ∧
    Order.comminfo order' = c ∧
    Order.ordtype order' = Order.ordtype order ∧
    Order.data order' = Order.data order ∧
    Order.size order' = Order.size order ∧
    orderbyid self' !! oid = Some order' ∧
    (∀ k, k ≠ oid → orderbyid self' !! k = orderbyid self !! k) ∧
    notifs self' = notifs self ++ [Some order'] ∧
    positions self' = positions self ∧
    cash self' = cash self ∧ value self' = value self ∧
    (∀ ev, Some (OrderId ev) = oid →
           Order.status <$> orderbyid (OnOrderInMarket self' ev).2 !! oid =
             Some Accepted).
Proof.
  intros Hargs Hsend Hc.
  pose proof (submit_success store self order vco args oid c Hargs Hsend Hc)
    as Hsubmit. cbv zeta in Hsubmit.
  eexists _, _. split; [exact Hsubmit |].
  unfold notify, set_notifs, set_orderbyid.
  cbn [orderbyid notifs positions cash value].
  repeat split.
  - apply lookup_insert_eq.
  - intros k Hk. by rewrite lookup_insert_ne.
  - intros ev Hev. unfold OnOrderInMarket. rewrite Hev. cbn [orderbyid].
    rewrite lookup_insert_eq. cbn [snd].
    unfold notify, set_notifs, set_orderbyid. cbn [orderbyid].
    by rewrite lookup_insert_eq.
Qed.

Lemma submit_registers_witness :
  send_args request_X = Return args_X ∧
  vcct_SendOrder store_A1 args_X = Return (Some "A1") ∧
  getcommissioninfo (init None None) (Order.data order_A1) =
    Return (Some (VCCommInfo 1 false)) ∧
  ∃ order' self',
    submit store_A1 (init None None) order_A1 request_X = (Return order', self') ∧
    Order.status order' = Submitted ∧ Order.vcorder order' = Some "A1" ∧
    Order.comminfo order' = Some (VCCommInfo 1 false) ∧
    Order.ordtype order' = Order.ordtype order_A1 ∧
    Order.data order' = Order.data order_A1 ∧
    Order.size order' = Order.size order_A1 ∧
    orderbyid self' !! Some "A1" = Some order' ∧
    (∀ k, k ≠ Some "A1" →
          orderbyid self' !! k = orderbyid (init None None) !! k) ∧
    notifs self' = notifs (init None None) ++ [Some order'] ∧
    positions self' = positions (init None None) ∧
    cash self' = cash (init None None) ∧ value self' = value (init None None) ∧
    (∀ ev, Some (OrderId ev) = Some "A1" →
           Order.status <$> orderbyid (OnOrderInMarket self' ev).2 !! Some "A1" =
             Some Accepted).
Proof.
  assert (Hargs : send_args request_X = Return args_X).
  { vm_cast_no_check (@eq_refl _ (Return args_X)). }
  assert (Hsend : vcct_SendOrder store_A1 args_X = Return (Some "A1"))
    by exact eq_refl.
  assert (Hc : getcommissioninfo (init None None) (Order.data order_A1) =
               Return (Some (VCCommInfo 1 false))).
  { vm_cast_no_check (@eq_refl _ (Return (Some (VCCommInfo 1 false)))). }
  split; [exact Hargs |]. split; [exact Hsend |]. split; [exact Hc |].
  exact (submit_registers store_A1 (init None None) order_A1 request_X args_X
           (Some "A1") (Some (VCCommInfo 1 false)) Hargs Hsend Hc).
Defined.



